(** * Stock monitoring: the polling loop and the alert decision

    A shallow embedding of
      - [src/http_handlers/alphavantage_api.py]  (module [AlphaVantageApi]),
      - [src/config.py]                          (module [StockConfig]),
      - [src/us_stock_manager/price_monitor.py]  (module [PriceMonitor]),
      - [src/us_stock_manager/stock_monitor.py]  (module [StockMonitor]).

    Prices are Python floats, modelled by the kernel's binary64 floats.
    Dictionaries are [gmap]s, or association lists where the iteration order
    is observable.  Methods that mutate [self], call the provider, print,
    sleep or raise are programs of the monad [prog]: they thread the object's
    state, append to a trace of observable events and end either with a value
    or with a raised exception. *)

From Stdlib Require Import ZArith Floats.
From stdpp Require Import gmap strings list pretty.

Local Open Scope Z_scope.

(** ** Configuration data (the parsed YAML document) *)

(** One entry of [price_alerts.conditions].  The code reads
    [threshold_percent] only; [comparison] appears in the commented examples
    of [config.py], [direction] is the field the specification's data model
    names.  No code path reads either of them. *)
Record condition : Type := Condition {
  threshold_percent : float;
  comparison : string;
  direction : string
}.

Record price_alerts_cfg : Type := PriceAlerts {
  enabled : bool;
  conditions : list condition
}.

Record company : Type := Company {
  symbol : string;
  name : string;
  price_alerts : price_alerts_cfg;
  market : option string          (* the key [get_companies()] adds *)
}.

(** The dictionary [data] that [process_price_updates] receives per symbol
    and keeps in [self.cache]: the keys the code reads. *)
Record quote : Type := Quote {
  price : float;
  previous_close : float
}.

(** The dictionary appended to [alerts_to_send]. *)
Record alert : Type := Alert {
  alert_type : string;
  alert_symbol : string;
  alert_company : company;
  alert_data : quote;
  alert_change : float
}.

(** ** Exceptions, events and the program monad *)

(** The subclasses of Python's [Exception] that the modelled code raises. *)
Inductive exn : Type :=
| ConnectionError                 (* [session.get] could not reach the host *)
| HTTPError                       (* [response.raise_for_status()] *)
| AttributeError (attr : string)  (* attribute missing on the receiver *)
| TypeError                       (* arithmetic on [None] *)
| ZeroDivisionError               (* float division by zero *)
| IndexError.                     (* [conditions[0]] on an empty list *)

Inductive result (A : Type) : Type :=
| Ok (a : A)
| Raise (e : exn).
Arguments Ok {A} a.
Arguments Raise {A} e.

(** What an observer of the process sees. *)
Inductive event : Type :=
| EvRequest (function sym : string)          (* one GET to the provider *)
| EvPrint (sym : string) (current : option float) (change : float)
| EvSleep (seconds : Z)                      (* [await asyncio.sleep(n)] *)
| EvLogError (e : exn)                       (* [logging.error] *)
| EvSendAlerts (alerts : list alert).        (* [send_alerts_batch(alerts)] *)


Definition is_request (ev : event) : bool :=
  match ev with EvRequest _ _ => true | _ => false end.

Definition is_dispatch (ev : event) : bool :=
  match ev with EvSendAlerts _ => true | _ => false end.

Definition is_provider_or_print (ev : event) : bool :=
  match ev with EvRequest _ _ | EvPrint _ _ _ => true | _ => false end.

Definition requests_of (function : string) (cs : list company) : list event :=
  map (fun c => EvRequest function (symbol c)) cs.

Definition prog (S A : Type) : Type := S -> result A * S * list event.

Definition ret {S A} (a : A) : prog S A := fun s => (Ok a, s, []).

Definition raise {S A} (e : exn) : prog S A := fun s => (Raise e, s, []).

Definition bind {S A B} (m : prog S A) (k : A -> prog S B) : prog S B :=
  fun s =>
    match m s with
    | (Ok a, s1, t1) => let '(r, s2, t2) := k a s1 in (r, s2, t1 ++ t2)
    | (Raise e, s1, t1) => (Raise e, s1, t1)
    end.

#[global] Instance prog_ret {S} : MRet (prog S) := fun A => @ret S A.
#[global] Instance prog_bind {S} : MBind (prog S) := fun A B k m => bind m k.

Definition emit {S} (ev : event) : prog S unit := fun s => (Ok tt, s, [ev]).

Definition gets {S A} (f : S -> A) : prog S A := fun s => (Ok (f s), s, []).

Definition modify {S} (f : S -> S) : prog S unit := fun s => (Ok tt, f s, []).

Definition sleep {S} (seconds : Z) : prog S unit := emit (EvSleep seconds).

(** A value or an exception computed without touching the state. *)
Definition lift {S A} (r : result A) : prog S A :=
  match r with
  | Ok a => ret a
  | Raise e => raise e
  end.

(** [try: body except Exception as e: handler(e)].  The state reached when
    the exception was raised is the one the handler starts from. *)
Definition try_except {S A} (body : prog S A) (handler : exn -> prog S A)
  : prog S A :=
  fun s =>
    match body s with
    | (Ok a, s1, t1) => (Ok a, s1, t1)
    | (Raise e, s1, t1) => let '(r, s2, t2) := handler e s1 in (r, s2, t1 ++ t2)
    end.

(** [for x in l: body(x)]; a [continue] is a body that returns early. *)
Fixpoint for_each {S A} (l : list A) (body : A -> prog S unit) : prog S unit :=
  match l with
  | [] => ret tt
  | x :: l' => bind (body x) (fun _ => for_each l' body)
  end.

(** A [for] loop that also updates a local variable [acc]. *)
Fixpoint for_fold {S A B} (l : list A) (acc : B) (body : A -> B -> prog S B)
  : prog S B :=
  match l with
  | [] => ret acc
  | x :: l' => bind (body x acc) (fun acc' => for_fold l' acc' body)
  end.

(** ** The market-data provider *)

Module AlphaVantageApi.

(** What one GET to [https://www.alphavantage.co/query] comes back with.
    [series] is the value of the JSON body under the series key, [None]
    when the key is absent; each entry pairs a timestamp with the float
    read from its ["4. close"]. *)
Inductive response : Type :=
| Unreachable
| BadStatus
| Json (series : option (list (string * float))).

(** The network: which response a request for ([function], [symbol])
    receives. *)
Definition network : Type := string -> string -> response.

(** [for _, value in time_series.items(): return float(value["4. close"])] *)
Definition first_close (series : list (string * float)) : option float :=
  match series with
  | [] => None
  | (_, close) :: _ => Some close
  end.

(** [for key, value in time_series.items(): if key == yesterday: return ...] *)
Fixpoint close_on (day : string) (series : list (string * float))
  : option float :=
  match series with
  | [] => None
  | (key, close) :: rest =>
      if bool_decide (key = day) then Some close else close_on day rest
  end.

(** The value a method returns, or the exception it raises, on a response;
    [pick] is the loop over the series. *)
Definition read (pick : list (string * float) -> option float)
    (r : response) : result (option float) :=
  match r with
  | Unreachable => Raise ConnectionError
  | BadStatus => Raise HTTPError
  | Json None => Raise (AttributeError "items")
  | Json (Some series) => Ok (pick series)
  end.

(** The methods also print the JSON body they received; that output is not
    part of the trace. *)
Definition get_current_trading_price {S} (net : network) (sym : string)
  : prog S (option float) :=
  emit (EvRequest "TIME_SERIES_INTRADAY" sym);;
  lift (read first_close (net "TIME_SERIES_INTRADAY" sym)).

(** [yesterday] is the string [get_yesterday()] builds from the clock. *)
Definition get_yesterday_close {S} (net : network) (yesterday : string)
    (sym : string) : prog S (option float) :=
  emit (EvRequest "TIME_SERIES_DAILY" sym);;
  lift (read (close_on yesterday) (net "TIME_SERIES_DAILY" sym)).

End AlphaVantageApi.

(** What one cycle reads from outside the process: the provider's answers
    and the clock ([datetime.date.today().isoformat()] and the day before,
    as [get_yesterday] formats it). *)
Record env : Type := Env {
  net : AlphaVantageApi.network;
  today : string;
  yesterday : string
}.

(** ** [config.py] *)

Module StockConfig.

Record market_config : Type := MarketConfig {
  exchange : string;
  currency : string
}.

(** The dictionary [self.config]: the sections the monitor reads, each in
    the document's order. *)
Record t : Type := Config {
  markets : list (string * market_config);
  companies : list (string * list company)
}.

Definition get_markets (cfg : t) : list (string * market_config) :=
  markets cfg.

(** [dict.get(key, default)] on an association list. *)
Fixpoint dict_get {V} (key : string) (d : list (string * V)) (default : V)
  : V :=
  match d with
  | [] => default
  | (k, v) :: rest => if bool_decide (k = key) then v else dict_get key rest default
  end.

Definition with_market (market_name : string) (c : company) : company :=
  {| symbol := symbol c; name := name c; price_alerts := price_alerts c;
     market := Some market_name |}.

(** [get_companies(market)]; the empty string stands for a falsy
    [market]. *)
Definition get_companies (cfg : t) (market : string) : list company :=
  if bool_decide (market = "") then
    concat (map (fun '(market_name, company_list) =>
                   map (with_market market_name) company_list)
                (companies cfg))
  else dict_get market (companies cfg) [].

End StockConfig.

(** ** [us_stock_manager/price_monitor.py] *)

Module PriceMonitor.

(** The fields of [self] that change; [self.config] and [self.us_stock_api]
    are fixed at construction and passed as arguments. *)
Record state : Type := State {
  previous_closes : gmap string (option float);
  previous_close_date : option string
}.

(** [__init__] *)
Definition init : state :=
  {| previous_closes := ∅; previous_close_date := None |}.

Definition set_previous_close (sym : string) (close : option float)
    (self : state) : state :=
  {| previous_closes := <[sym := close]> (previous_closes self);
     previous_close_date := previous_close_date self |}.

Definition set_previous_close_date (date : string) (self : state) : state :=
  {| previous_closes := previous_closes self;
     previous_close_date := Some date |}.

Definition get_active_markets (cfg : StockConfig.t) : list string :=
  (filter (fun m => m.1 = "us") (StockConfig.get_markets cfg)).*1.

Definition ensure_previous_closes (cfg : StockConfig.t) (e : env)
  : prog state unit :=
  date ← gets previous_close_date;
  if bool_decide (date = Some (today e)) then ret tt
  else
    for_each (StockConfig.get_companies cfg "us") (fun company =>
      close ← AlphaVantageApi.get_yesterday_close (net e) (yesterday e)
                (symbol company);
      modify (set_previous_close (symbol company) close));;
    modify (set_previous_close_date (today e)).

(** [((current_price - prev_close) / prev_close) * 100] on Python floats:
    subtracting from [None] raises, dividing by a zero raises. *)
Definition percent_change (current_price : option float) (prev_close : float)
  : result float :=
  match current_price with
  | None => Raise TypeError
  | Some current =>
      if PrimFloat.eqb prev_close 0 then Raise ZeroDivisionError
      else Ok ((current - prev_close) / prev_close * 100)%float
  end.

(** [self.check_alerts]: the class defines no such attribute, so looking it
    up raises before any argument is used. *)
Definition check_alerts (c : company) (current_price : option float)
    (change : float) : prog state unit :=
  raise (AttributeError "check_alerts").

(** The body of the loop of [poll_prices_for_companies]. *)
Definition poll_company (e : env) (c : company) : prog state unit :=
  current_price ← AlphaVantageApi.get_current_trading_price (net e) (symbol c);
  prev_close ← gets (fun self => mjoin (previous_closes self !! symbol c));
  match prev_close with
  | None => ret tt
  | Some prev_close =>
      change ← lift (percent_change current_price prev_close);
      emit (EvPrint (symbol c) current_price change);;
      check_alerts c current_price change
  end.

Definition poll_prices_for_companies (e : env) (companies : list company)
  : prog state unit :=
  for_each companies (poll_company e).

(** [self.check_volatility]: not an attribute of this class either. *)
Definition check_volatility : prog state bool :=
  raise (AttributeError "check_volatility").

Definition calculate_wait_time (cfg : StockConfig.t) : prog state Z :=
  if bool_decide (get_active_markets cfg = []) then ret 300
  else
    high_volatility ← check_volatility;
    if high_volatility : bool then ret 60 else ret 180.

(** The body of the [try] in [monitor_prices]: one cycle. *)
Definition cycle (cfg : StockConfig.t) (e : env) : prog state unit :=
  if bool_decide (get_active_markets cfg = []) then sleep 300
  else
    ensure_previous_closes cfg e;;
    poll_prices_for_companies e (StockConfig.get_companies cfg "us");;
    wait_time ← calculate_wait_time cfg;
    sleep wait_time.

(** One turn of [while True]: the cycle under its [except Exception]. *)
Definition iteration (cfg : StockConfig.t) (e : env) : prog state unit :=
  try_except (cycle cfg e)
    (fun err => emit (EvLogError err);; sleep 60).

(** [monitor_prices] over a finite prefix of what the outside world supplies,
    one [env] per turn of the loop.  The loop has no [break] and no [return]:
    it leaves a turn only by starting the next one, or by an exception that
    escapes [iteration]. *)
Definition monitor_prices (cfg : StockConfig.t) (world : list env)
  : prog state unit :=
  for_each world (iteration cfg).

End PriceMonitor.

(** ** [us_stock_manager/stock_monitor.py] *)

Module StockMonitor.

(** [self.config].  [process_price_updates] calls [get_company_config] on it,
    a method that no file of the repository defines ([StockConfig] has
    [get_company_by_symbol]); it is taken as given: the company's
    configuration, or [None]. *)
Record config : Type := Config {
  get_company_config : string -> option company
}.

(** A naive [datetime], in microseconds since the epoch. *)
Abbreviation datetime := Z (only parsing).

(** [self]: the two dictionaries the alert decision uses.  [clock_reads]
    counts the calls of [datetime.now()] made so far; it is not a field of the
    object but tells which reading of the clock the next call returns. *)
Record state : Type := State {
  cache : gmap string quote;
  alert_cooldown : gmap string datetime;
  clock_reads : nat
}.

Definition init : state :=
  {| cache := ∅; alert_cooldown := ∅; clock_reads := 0 |}.

Definition set_cache (sym : string) (data : quote) (self : state) : state :=
  {| cache := <[sym := data]> (cache self);
     alert_cooldown := alert_cooldown self;
     clock_reads := clock_reads self |}.

Definition set_cooldown (key : string) (now : datetime) (self : state)
  : state :=
  {| cache := cache self;
     alert_cooldown := <[key := now]> (alert_cooldown self);
     clock_reads := clock_reads self |}.

Definition tick (self : state) : state :=
  {| cache := cache self; alert_cooldown := alert_cooldown self;
     clock_reads := Datatypes.S (clock_reads self) |}.

(** [datetime.now()]: the clock's next reading. *)
Definition datetime_now (clock : nat -> datetime) : prog state datetime :=
  fun self => (Ok (clock (clock_reads self)), tick self, []).

(** [timedelta.seconds] of the difference [delta] of two datetimes: Python
    normalises a timedelta to days, seconds in [0, 86400) and microseconds in
    [0, 10^6), and [.seconds] is the middle component. *)
Definition timedelta_seconds (delta : Z) : Z :=
  (delta mod 86400000000) / 1000000.

(** [f"{symbol}:{alert_type}"] *)
Definition cooldown_key (sym alert_type : string) : string :=
  sym +:+ ":" +:+ alert_type.

Definition cooldown_of (alert_type : string) : Z :=
  if bool_decide (alert_type = "price") then 900 else 1800.

Definition should_send_alert (clock : nat -> datetime) (sym alert_type : string)
  : prog state bool :=
  last_alert ← gets (fun self =>
                       alert_cooldown self !! cooldown_key sym alert_type);
  match last_alert with
  | None => ret true
  | Some last_alert =>
      now ← datetime_now clock;
      ret (bool_decide
             (cooldown_of alert_type < timedelta_seconds (now - last_alert)))
  end.

Definition set_alert_cooldown (clock : nat -> datetime)
    (sym alert_type : string) : prog state unit :=
  now ← datetime_now clock;
  modify (set_cooldown (cooldown_key sym alert_type) now).

(** [(data['price'] - cached['previous_close']) / cached['previous_close'] * 100] *)
Definition change_percent (data cached : quote) : result float :=
  if PrimFloat.eqb (previous_close cached) 0 then Raise ZeroDivisionError
  else Ok ((price data - previous_close cached) / previous_close cached
           * 100)%float.

(** [company['price_alerts']['conditions'][0]['threshold_percent']] *)
Definition first_threshold (c : company) : result float :=
  match conditions (price_alerts c) with
  | [] => Raise IndexError
  | cond :: _ => Ok (threshold_percent cond)
  end.

Definition price_alert (sym : string) (c : company) (data : quote)
    (change : float) : alert :=
  {| alert_type := "price"; alert_symbol := sym; alert_company := c;
     alert_data := data; alert_change := change |}.

(** The body of the loop of [process_price_updates], on one item of
    [stock_data] and the local list [alerts_to_send]. *)
Definition process_symbol (cfg : config) (clock : nat -> datetime)
    (item : string * quote) (alerts_to_send : list alert)
  : prog state (list alert) :=
  let '(sym, data) := item in
  match get_company_config cfg sym with
  | None => ret alerts_to_send
  | Some company =>
      if negb (enabled (price_alerts company)) then ret alerts_to_send
      else
        cached ← gets (fun self => cache self !! sym);
        match cached with
        | None => modify (set_cache sym data);; ret alerts_to_send
        | Some cached =>
            change ← lift (change_percent data cached);
            threshold ← lift (first_threshold company);
            alerts ←
              (if PrimFloat.leb threshold (PrimFloat.abs change) then
                 send ← should_send_alert clock sym "price";
                 if send : bool then
                   set_alert_cooldown clock sym "price";;
                   ret (alerts_to_send
                        ++ [price_alert sym company data change])
                 else ret alerts_to_send
               else ret alerts_to_send);
            modify (set_cache sym data);;
            ret alerts
        end
  end.

(** [self.format_alert]: the class defines no such attribute, so the lookup
    raises. *)
Definition format_alert (a : alert) : prog state string :=
  raise (AttributeError "format_alert").

(** [send_alerts_batch].  The call with its batch is the event.  The loop
    formats each alert before it appends it to the list of a channel, and
    the formatting raises: for a batch that is not empty the lines after
    [format_alert] are never reached; for an empty batch both lists stay
    empty and nothing is sent. *)
Definition send_alerts_batch (alerts : list alert) : prog state unit :=
  emit (EvSendAlerts alerts);;
  for_each alerts (fun a => formatted ← format_alert a; ret tt).

(** [stock_data] is a dictionary: the items in iteration order, each symbol
    once. *)
Definition process_price_updates (cfg : config) (clock : nat -> datetime)
    (stock_data : list (string * quote)) (market : string)
  : prog state unit :=
  alerts_to_send ← for_fold stock_data [] (process_symbol cfg clock);
  match alerts_to_send with
  | [] => ret tt
  | _ :: _ => send_alerts_batch alerts_to_send
  end.

End StockMonitor.

(** ** The threshold evaluator as the specification words it

    Section 4.2 of the specification: the percent change against the
    reference price, a zero reference yielding no trigger, and a condition
    triggering when the magnitude reaches its threshold and the sign agrees
    with its direction.  These definitions follow the specification, not the
    code; they are what the code is compared with. *)

Module ThresholdEvaluator.

Definition percentChange (currentPrice referencePrice : float) : float :=
  ((currentPrice - referencePrice) / referencePrice * 100)%float.

Definition direction_matches (dir : string) (change : float) : bool :=
  if bool_decide (dir = "any") then true
  else if bool_decide (dir = "up") then PrimFloat.ltb 0 change
  else if bool_decide (dir = "down") then PrimFloat.ltb change 0
  else false.

Definition triggers (currentPrice referencePrice : float) (c : condition)
  : bool :=
  let change := percentChange currentPrice referencePrice in
  PrimFloat.leb (threshold_percent c) (PrimFloat.abs change)
  && direction_matches (direction c) change.

Definition evaluate (currentPrice referencePrice : float)
    (conds : list condition) : list condition :=
  if PrimFloat.eqb referencePrice 0 then []
  else List.filter (triggers currentPrice referencePrice) conds.

End ThresholdEvaluator.

(** An alert whose recorded change reaches the threshold of the first
    condition of the company it was raised for. *)
Definition reaches_first_threshold (a : alert) : bool :=
  match conditions (price_alerts (alert_company a)) with
  | [] => false
  | cond :: _ =>
      PrimFloat.leb (threshold_percent cond) (PrimFloat.abs (alert_change a))
  end.

(** ** Sample configurations, providers and states *)

Definition upward (threshold : float) : condition :=
  {| threshold_percent := threshold; comparison := "previous_close";
     direction := "up" |}.

Definition listed (sym : string) (conds : list condition) : company :=
  {| symbol := sym; name := sym;
     price_alerts := {| enabled := true; conditions := conds |};
     market := None |}.

Definition XYZ : company := listed "XYZ" [upward 5].
Definition AAA : company := listed "AAA" [upward 5].
Definition BBB : company := listed "BBB" [upward 5].
Definition QRS : company := listed "QRS" [upward 50; upward 5].
Definition TWO : company := listed "TWO" [upward 5; upward 8].

(** The US market present in the configuration: it counts as open. *)
Definition us_config (cs : list company) : StockConfig.t :=
  {| StockConfig.markets :=
       [("us", {| StockConfig.exchange := "NASDAQ";
                  StockConfig.currency := "USD" |})];
     StockConfig.companies := [("us", cs)] |}.

(** Only another market configured: no monitored market is open. *)
Definition closed_config (cs : list company) : StockConfig.t :=
  {| StockConfig.markets :=
       [("swedish", {| StockConfig.exchange := "OMX";
                       StockConfig.currency := "SEK" |})];
     StockConfig.companies := [("us", cs)] |}.

(** A provider that cannot be reached for the symbols of [down] and answers
    every other request with a one-entry series closing at [close]. *)
Definition provider (down : list string) (close : float)
  : AlphaVantageApi.network :=
  fun function sym =>
    if bool_decide (sym ∈ down) then AlphaVantageApi.Unreachable
    else AlphaVantageApi.Json (Some [("2026-11-2", close)]).

Definition on_day (n : AlphaVantageApi.network) : env :=
  {| net := n; today := "2026-11-03"; yesterday := "2026-11-2" |}.

(** A monitor whose cache was refreshed on the day of [on_day]. *)
Definition refreshed (closes : list (string * float)) : PriceMonitor.state :=
  {| PriceMonitor.previous_closes :=
       list_to_map (map (fun kv => (kv.1, Some kv.2)) closes);
     PriceMonitor.previous_close_date := Some "2026-11-03" |}.

Definition configured (cs : list company) : StockMonitor.config :=
  {| StockMonitor.get_company_config :=
       fun sym => List.find (fun c => bool_decide (symbol c = sym)) cs |}.

Definition seconds (n : Z) : StockMonitor.datetime := n * 1000000.

(** A monitor that has seen [sym] before, with previous close [close], and
    has sent no alert yet. *)
Definition holding (sym : string) (close : float) : StockMonitor.state :=
  {| StockMonitor.cache := {[ sym := {| price := close; previous_close := close |} ]};
     StockMonitor.alert_cooldown := ∅;
     StockMonitor.clock_reads := 0 |}.

(** A monitor that sent a price alert for [sym] at the time [sent]. *)
Definition alerted (sym : string) (sent : StockMonitor.datetime)
  : StockMonitor.state :=
  {| StockMonitor.cache := ∅;
     StockMonitor.alert_cooldown :=
       {[ StockMonitor.cooldown_key sym "price" := sent ]};
     StockMonitor.clock_reads := 0 |}.

(** ** What the provider answers for a symbol *)

(** The outcome of [get_yesterday_close] and of [get_current_trading_price]
    for a symbol, in the environment of one cycle. *)
Definition yesterday_close (e : env) (sym : string) : result (option float) :=
  AlphaVantageApi.read (AlphaVantageApi.close_on (yesterday e))
    (net e "TIME_SERIES_DAILY" sym).

Definition current_price (e : env) (sym : string) : result (option float) :=
  AlphaVantageApi.read AlphaVantageApi.first_close
    (net e "TIME_SERIES_INTRADAY" sym).

(** The events the wired loop can leave: no batch of alerts, and no sleep
    other than the 300 seconds of closed markets and the 60 seconds of the
    handler. *)
Definition wired_loop_event (ev : event) : Prop :=
  match ev with
  | EvSendAlerts _ => False
  | EvSleep n => n = 300 \/ n = 60
  | _ => True
  end.

(** A provider that answers every request with a body that lacks the series
    key, as it does when it limits the rate of requests. *)
Definition rate_limited : AlphaVantageApi.network :=
  fun _ _ => AlphaVantageApi.Json None.

(** Whether [process_price_updates] looks at a symbol at all: its company is
    configured and has price alerts enabled (lines 68-70). *)
Definition monitored (cfg : StockMonitor.config) (sym : string) : bool :=
  match StockMonitor.get_company_config cfg sym with
  | Some c => enabled (price_alerts c)
  | None => false
  end.

(** ** [StockMonitor.fetch_batch_prices] *)

Module BatchFetch.

Definition batch_size : nat := 100.

(** [range(start, stop, step)], unrolled at most [fuel] times. *)
Fixpoint range_from (fuel start stop step : nat) : list nat :=
  match fuel with
  | O => []
  | S fuel' =>
      if (start <? stop)%nat
      then start :: range_from fuel' (start + step) stop step
      else []
  end.

(** [range(0, stop, step)] for a positive [step]: [stop] turns are enough. *)
Definition range (stop step : nat) : list nat := range_from stop 0 stop step.

(** [symbols[i:i + batch_size]] *)
Definition batch_at (symbols : list string) (i : nat) : list string :=
  take batch_size (drop i symbols).

(** The batches the loop goes through, in order. *)
Definition batches (symbols : list string) : list (list string) :=
  map (batch_at symbols) (range (length symbols) batch_size).

(** [sep.join(l)] *)
Fixpoint join (sep : string) (l : list string) : string :=
  match l with
  | [] => ""
  | [s] => s
  | s :: rest => s +:+ sep +:+ join sep rest
  end.

Definition batch_url (symbols_str : string) : string :=
  "https://api.example.com/batch?symbols=" +:+ symbols_str.

(** The body of the loop: one GET, whose JSON body [data] updates
    [results]; [get] says what a GET of a URL comes back with. *)
Definition fetch_batch {S} (get : string -> result (gmap string quote))
    (symbols : list string) (i : nat) (results : gmap string quote)
  : prog S (gmap string quote) :=
  let symbols_str := join "," (batch_at symbols i) in
  emit (EvRequest "batch" symbols_str);;
  data ← lift (get (batch_url symbols_str));
  ret (data ∪ results).

Definition fetch_batch_prices {S} (get : string -> result (gmap string quote))
    (symbols : list string) (market : string) : prog S (gmap string quote) :=
  for_fold (range (length symbols) batch_size) ∅ (fetch_batch get symbols).

End BatchFetch.

(** ** The lookups of [config.py] *)

Module StockConfigLookup.

(** The two nested loops that [get_company_by_symbol] and
    [get_market_for_company] share: the first company with the symbol, in
    the order of the markets and of their lists, with the name of the market
    it was found under. *)
Fixpoint first_listing (sym : string) (d : list (string * list company))
  : option (string * company) :=
  match d with
  | [] => None
  | (market_name, company_list) :: rest =>
      match List.find (fun c => bool_decide (symbol c = sym)) company_list with
      | Some c => Some (market_name, c)
      | None => first_listing sym rest
      end
  end.

(** The company found, with its ['market'] set; [None] when no market lists
    the symbol. *)
Definition get_company_by_symbol (cfg : StockConfig.t) (sym : string)
  : option company :=
  (fun found => StockConfig.with_market found.1 found.2)
    <$> first_listing sym (StockConfig.companies cfg).

(** [markets.get(market_name, {})] for the market the symbol was found
    under: [Some None] stands for the empty dictionary of a market that the
    [markets] section does not have, [None] for the [None] returned when no
    market lists the symbol. *)
Definition get_market_for_company (cfg : StockConfig.t) (sym : string)
  : option (option StockConfig.market_config) :=
  (fun found =>
     StockConfig.dict_get found.1
       (map (fun kv => (kv.1, Some kv.2)) (StockConfig.markets cfg)) None)
    <$> first_listing sym (StockConfig.companies cfg).

End StockConfigLookup.

(** ** The scheduling methods of [StockMonitor] *)

Module StockMonitorSchedule.

(** One start and end of trading. *)
Record hours : Type := Hours {
  opens : string;
  closes : string
}.

(** A market of [self.config['markets']]: the part [is_market_open] reads,
    the dictionary under ['market_hours'] when the key is there. *)
Record market_config : Type := MarketConfig {
  market_hours : option (gmap string hours)
}.

(** [is_market_open]: it reads [market_config['market_hours']['regular']]
    and returns [True]; [None] stands for the KeyError of a missing key. *)
Definition is_market_open (mc : market_config) (time : Z) : option bool :=
  sessions ← market_hours mc;
  _ ← sessions !! "regular";
  Some true.

(** [get_active_markets], over the items of [self.config['markets']]. *)
Fixpoint get_active_markets (markets : list (string * market_config))
    (now : Z) : option (list string) :=
  match markets with
  | [] => Some []
  | (market_name, mc) :: rest =>
      open ← is_market_open mc now;
      active ← get_active_markets rest now;
      Some (if open : bool then market_name :: active else active)
  end.

(** [check_volatility]: the placeholder. *)
Definition check_volatility : bool := false.

Definition calculate_wait_time (markets : list (string * market_config))
    (now : Z) : option Z :=
  active_markets ← get_active_markets markets now;
  match active_markets with
  | [] => Some 300
  | _ :: _ => Some (if check_volatility then 60 else 180)
  end.

End StockMonitorSchedule.

(** ** Dates: [get_yesterday] and [isoformat] *)

Module Calendar.

(** A [datetime.date]. *)
Record date : Type := Date {
  year : N;
  month : N;
  day : N
}.

Definition is_leap (y : N) : bool :=
  ((y mod 4 =? 0) && (negb (y mod 100 =? 0) || (y mod 400 =? 0)))%N.

Definition days_in_month (y m : N) : N :=
  (if m =? 2 then (if is_leap y then 29 else 28)
   else if (m =? 4) || (m =? 6) || (m =? 9) || (m =? 11) then 30
   else 31)%N.

(** The dates Python has: years 1 to 9999 of the proleptic Gregorian
    calendar. *)
Definition valid (d : date) : bool :=
  ((1 <=? year d) && (year d <=? 9999)
   && (1 <=? month d) && (month d <=? 12)
   && (1 <=? day d) && (day d <=? days_in_month (year d) (month d)))%N.

(** [d - datetime.timedelta(days=1)]; [None] for the OverflowError at
    [date.min]. *)
Definition day_before (d : date) : option date :=
  (if 1 <? day d then
     Some {| year := year d; month := month d; day := day d - 1 |}
   else if 1 <? month d then
     Some {| year := year d; month := month d - 1;
             day := days_in_month (year d) (month d - 1) |}
   else if 1 <? year d then
     Some {| year := year d - 1; month := 12; day := 31 |}
   else None)%N.

(** [f"{year}-{month}-{day}"]: the integers as [str] prints them. *)
Definition unpadded (d : date) : string :=
  pretty (year d) +:+ "-" +:+ pretty (month d) +:+ "-" +:+ pretty (day d).

(** [get_yesterday()], with the [date.today()] it reads. *)
Definition get_yesterday (today : date) : option string :=
  unpadded <$> day_before today.

Fixpoint zeros (n : nat) : string :=
  match n with
  | O => ""
  | S n' => "0" +:+ zeros n'
  end.

(** The integer printed with at least [width] digits, as [%04d] and [%02d]
    do for a number that is not negative. *)
Definition pad (width : nat) (s : string) : string :=
  zeros (width - String.length s) +:+ s.

(** [date.isoformat()]: [YYYY-MM-DD]. *)
Definition isoformat (d : date) : string :=
  pad 4 (pretty (year d)) +:+ "-" +:+ pad 2 (pretty (month d)) +:+ "-"
  +:+ pad 2 (pretty (day d)).

(** Whether every number from [n] on, [fuel] of them, prints with [len]
    digits. *)
Fixpoint prints_with (len fuel : nat) (n : N) : bool :=
  match fuel with
  | O => true
  | S fuel' =>
      (String.length (pretty n) =? len)%nat && prints_with len fuel' (N.succ n)
  end.

End Calendar.

(** A series whose keys are ISO dates, as the daily series of the provider
    has them. *)
Definition iso_keyed (series : list (string * float)) : Prop :=
  Forall (fun kv => exists d, kv.1 = Calendar.isoformat d) series.

(** Whether an event is a request for the daily series. *)
Definition is_daily_request (ev : event) : bool :=
  match ev with
  | EvRequest function _ => bool_decide (function = "TIME_SERIES_DAILY")
  | _ => false
  end.

(** ** [StockMonitor.group_by_news_sources] *)

Module StockMonitorNews.

Record news_alerts_cfg : Type := NewsAlerts {
  news_enabled : bool;
  sources : list string
}.

(** A company of [self.config['companies'][market]]: the keys this method
    and its callers read. *)
Record news_company : Type := NewsCompany {
  news_symbol : string;
  news_alerts : news_alerts_cfg
}.

(** [groups[source].append(company)] on a [defaultdict(list)]. *)
Definition append_to (c : news_company)
    (groups : gmap string (list news_company)) (source : string)
  : gmap string (list news_company) :=
  <[source := default [] (groups !! source) ++ [c]]> groups.

(** The body of the loop over the companies of one market. *)
Definition add_company (groups : gmap string (list news_company))
    (c : news_company) : gmap string (list news_company) :=
  if news_enabled (news_alerts c)
  then foldl (append_to c) groups (sources (news_alerts c))
  else groups.

(** The body of the loop over the two markets; [None] stands for the
    KeyError of a market that [self.config['companies']] does not have. *)
Definition add_market (companies : gmap string (list news_company))
    (groups : option (gmap string (list news_company))) (market : string)
  : option (gmap string (list news_company)) :=
  groups ← groups;
  company_list ← companies !! market;
  Some (foldl add_company groups company_list).

Definition group_by_news_sources
    (companies : gmap string (list news_company))
  : option (gmap string (list news_company)) :=
  foldl (add_market companies) (Some ∅) ["swedish"; "us"].

End StockMonitorNews.

(** ** More sample data *)

(** A company with price alerts enabled and no condition configured. *)
Definition NIL : company := listed "NIL" [].

(** A monitor that holds the given previous closes in its cache and the
    given times of recorded price alerts. *)
Definition watching (closes : list (string * float))
    (sent : list (string * Z)) : StockMonitor.state :=
  {| StockMonitor.cache :=
       list_to_map
         (map (fun kv => (kv.1, {| price := kv.2; previous_close := kv.2 |}))
            closes);
     StockMonitor.alert_cooldown :=
       list_to_map
         (map (fun kv => (StockMonitor.cooldown_key kv.1 "price", kv.2)) sent);
     StockMonitor.clock_reads := 0 |}.

(** A provider whose daily series is keyed by the ISO date of yesterday. *)
Definition iso_provider (close : float) : AlphaVantageApi.network :=
  fun function sym => AlphaVantageApi.Json (Some [("2026-11-02", close)]).

(** * Properties *)

(** ** How programs run *)

(** A loop whose body raises at [c], after the items before it went through,
    raises there: the items after [c] play no part. *)
Lemma for_each_raise_at {S A} (body : A -> prog S unit) pre c post :
  forall s s1 t1 e s2 t2,
    for_each pre body s = (Ok tt, s1, t1) ->
    body c s1 = (Raise e, s2, t2) ->
    for_each (pre ++ c :: post) body s = (Raise e, s2, t1 ++ t2).
Proof.
  induction pre as [|x pre IH]; intros s s1 t1 e s2 t2 Hpre Hc.
  - cbn in Hpre. injection Hpre as <- <-. cbn [app for_each].
    unfold bind. rewrite Hc. reflexivity.
  - cbn [app for_each] in *. unfold bind in *.
    destruct (body x s) as [[[[]|ex] sx] tx]; [|discriminate].
    destruct (for_each pre body sx) as [[[[]|ep] sp] tp] eqn:Hrest;
      [|discriminate].
    injection Hpre as <- <-.
    rewrite (IH sx sp tp e s2 t2 Hrest Hc). rewrite app_assoc. reflexivity.
Qed.

(** ** The monitoring loop of [PriceMonitor] *)

(** The refresh, when it returns, has stamped the cache with today's date. *)
Lemma ensure_previous_closes_stamps cfg e self self1 t1 :
  PriceMonitor.ensure_previous_closes cfg e self = (Ok tt, self1, t1) ->
  PriceMonitor.previous_close_date self1 = Some (today e).
Proof.
  unfold PriceMonitor.ensure_previous_closes, mbind, prog_bind, bind, gets.
  destruct (bool_decide (PriceMonitor.previous_close_date self = Some (today e)))
    eqn:Hfresh.
  - cbn. intros [= <- _]. apply bool_decide_eq_true in Hfresh. exact Hfresh.
  - match goal with |- context [for_each ?l ?b self] =>
      destruct (for_each l b self) as [[[[]|err] s] t] end; cbn.
    + intros [= <- _]. reflexivity.
    + discriminate.
Qed.

(** With the date already stamped the refresh does nothing. *)
Lemma ensure_previous_closes_fresh cfg e self :
  PriceMonitor.previous_close_date self = Some (today e) ->
  PriceMonitor.ensure_previous_closes cfg e self = (Ok tt, self, []).
Proof.
  intros Hfresh.
  unfold PriceMonitor.ensure_previous_closes, mbind, prog_bind, bind, gets.
  rewrite bool_decide_eq_true_2 by exact Hfresh. reflexivity.
Qed.

(** C7, as the code has it.  When a refresh for the date [today] has
    returned, a second refresh for the same date, whatever the provider
    would answer by then, calls the provider not once (its trace is empty)
    and leaves the cache, entries and stored date, as the first one left it.
    The date is stamped in the last line of the refresh only: a refresh that
    raised has not stamped it, and is not covered. *)
Theorem ensure_previous_closes_twice_same_day cfg e e' self self1 t1 :
  today e' = today e ->
  PriceMonitor.ensure_previous_closes cfg e self = (Ok tt, self1, t1) ->
  PriceMonitor.ensure_previous_closes cfg e' self1 = (Ok tt, self1, []).
Proof.
  intros Hday Hfirst. apply ensure_previous_closes_fresh.
  rewrite Hday. eapply ensure_previous_closes_stamps, Hfirst.
Qed.

(** C8.  In a cycle in which no monitored market is open the loop goes
    straight to sleeping 300 seconds: that sleep is the whole trace of the
    turn (no request to the provider, neither for the reference prices nor
    for the current ones), the state is untouched, and 300 is also what
    [calculate_wait_time] answers for closed markets. *)
Theorem closed_markets_sleep_300 cfg e self :
  PriceMonitor.get_active_markets cfg = [] ->
  PriceMonitor.iteration cfg e self = (Ok tt, self, [EvSleep 300])
  /\ PriceMonitor.calculate_wait_time cfg self = (Ok 300, self, []).
Proof.
  intros Hclosed.
  unfold PriceMonitor.iteration, try_except, PriceMonitor.cycle,
    PriceMonitor.calculate_wait_time.
  rewrite Hclosed. cbn. auto.
Qed.

(** What one turn of the polling loop does, case by case. *)
Lemma poll_company_run e c self :
  PriceMonitor.poll_company e c self =
  let request := EvRequest "TIME_SERIES_INTRADAY" (symbol c) in
  match AlphaVantageApi.read AlphaVantageApi.first_close
          (net e "TIME_SERIES_INTRADAY" (symbol c)) with
  | Raise err => (Raise err, self, [request])
  | Ok current =>
      match mjoin (PriceMonitor.previous_closes self !! symbol c) with
      | None => (Ok tt, self, [request])
      | Some prev_close =>
          match PriceMonitor.percent_change current prev_close with
          | Raise err => (Raise err, self, [request])
          | Ok change =>
              (Raise (AttributeError "check_alerts"), self,
               [request; EvPrint (symbol c) current change])
          end
      end
  end.
Proof.
  unfold PriceMonitor.poll_company, AlphaVantageApi.get_current_trading_price,
    mbind, prog_bind, bind, emit, gets.
  destruct (AlphaVantageApi.read _ _) as [current|err]; cbn; [|reflexivity].
  destruct (mjoin _) as [prev_close|]; cbn; [|reflexivity].
  destruct (PriceMonitor.percent_change current prev_close); reflexivity.
Qed.

(** What the refresh does for one company. *)
Lemma refresh_company_run (e : env) (c : company) (self : PriceMonitor.state) :
  (close ← AlphaVantageApi.get_yesterday_close (net e) (yesterday e) (symbol c);
   modify (PriceMonitor.set_previous_close (symbol c) close)) self =
  let request := EvRequest "TIME_SERIES_DAILY" (symbol c) in
  match AlphaVantageApi.read (AlphaVantageApi.close_on (yesterday e))
          (net e "TIME_SERIES_DAILY" (symbol c)) with
  | Raise err => (Raise err, self, [request])
  | Ok close =>
      (Ok tt, PriceMonitor.set_previous_close (symbol c) close self, [request])
  end.
Proof.
  unfold AlphaVantageApi.get_yesterday_close, mbind, prog_bind, bind, emit,
    modify.
  destruct (AlphaVantageApi.read _ _) as [close|err]; reflexivity.
Qed.

Lemma poll_company_keeps_state e c self r self' t :
  PriceMonitor.poll_company e c self = (r, self', t) -> self' = self.
Proof.
  rewrite poll_company_run. cbv zeta.
  repeat case_match; intros [= _ <- _]; reflexivity.
Qed.

(** A property of the events of every turn holds of the loop's events. *)
Lemma for_each_trace {S A} (P : event -> Prop) (body : A -> prog S unit) :
  (forall x s r s' t, body x s = (r, s', t) -> Forall P t) ->
  forall l s r s' t, for_each l body s = (r, s', t) -> Forall P t.
Proof.
  intros Hbody. induction l as [|x l IH]; intros s r s' t.
  - cbn. intros [= _ _ <-]. constructor.
  - cbn [for_each]. unfold bind.
    destruct (body x s) as [[[[]|ex] sx] tx] eqn:Hx.
    + destruct (for_each l body sx) as [[rl sl] tl] eqn:Hl.
      intros [= _ _ <-]. apply Forall_app. split; eauto.
    + intros [= _ _ <-]. eauto.
Qed.

Lemma poll_trace e companies self r self' t :
  PriceMonitor.poll_prices_for_companies e companies self = (r, self', t) ->
  Forall (fun ev => is_provider_or_print ev = true) t.
Proof.
  apply for_each_trace. intros c s r0 s0 t0. rewrite poll_company_run.
  cbv zeta. repeat case_match; intros [= _ _ <-]; repeat constructor.
Qed.

Lemma ensure_trace cfg e self r self' t :
  PriceMonitor.ensure_previous_closes cfg e self = (r, self', t) ->
  Forall (fun ev => is_provider_or_print ev = true) t.
Proof.
  unfold PriceMonitor.ensure_previous_closes.
  unfold mbind at 1. unfold prog_bind, bind, gets.
  destruct (bool_decide _).
  - cbn. intros [= _ _ <-]. constructor.
  - unfold mbind at 1. unfold prog_bind, bind.
    match goal with |- context [for_each ?l ?b self] =>
      destruct (for_each l b self) as [[[[]|err] s] t0] eqn:Hloop end.
    + cbn. intros [= _ _ <-]. rewrite app_nil_r.
      revert Hloop. apply for_each_trace. intros c s1 r1 s2 t1.
      rewrite refresh_company_run. cbv zeta.
      case_match; intros [= _ _ <-]; repeat constructor.
    + intros [= _ _ <-].
      revert Hloop. apply for_each_trace. intros c s1 r1 s2 t1.
      rewrite refresh_company_run. cbv zeta.
      case_match; intros [= _ _ <-]; repeat constructor.
Qed.

(** A cycle with an open market, step by step: the refresh, the polling, and
    then [calculate_wait_time], whose call of [check_volatility] raises. *)
Lemma active_cycle_run cfg e self :
  PriceMonitor.get_active_markets cfg <> [] ->
  PriceMonitor.cycle cfg e self =
  match PriceMonitor.ensure_previous_closes cfg e self with
  | (Raise err, s1, t1) => (Raise err, s1, t1)
  | (Ok _, s1, t1) =>
      match PriceMonitor.poll_prices_for_companies e
              (StockConfig.get_companies cfg "us") s1 with
      | (Raise err, s2, t2) => (Raise err, s2, t1 ++ t2)
      | (Ok _, s2, t2) =>
          (Raise (AttributeError "check_volatility"), s2, t1 ++ t2)
      end
  end.
Proof.
  intros Hopen.
  unfold PriceMonitor.cycle, PriceMonitor.calculate_wait_time.
  rewrite !bool_decide_eq_false_2 by exact Hopen.
  unfold mbind, prog_bind, bind, PriceMonitor.check_volatility, raise.
  destruct (PriceMonitor.ensure_previous_closes cfg e self)
    as [[[[]|err] s1] t1]; [|reflexivity].
  destruct (PriceMonitor.poll_prices_for_companies e _ s1)
    as [[[[]|err] s2] t2]; [|reflexivity].
  rewrite app_nil_r. reflexivity.
Qed.

(** With an open market no cycle of the wired loop completes. *)
Lemma active_cycle_raises cfg e self :
  PriceMonitor.get_active_markets cfg <> [] ->
  exists err self' t,
    PriceMonitor.cycle cfg e self = (Raise err, self', t)
    /\ Forall (fun ev => is_provider_or_print ev = true) t.
Proof.
  intros Hopen. rewrite (active_cycle_run _ _ _ Hopen).
  destruct (PriceMonitor.ensure_previous_closes cfg e self)
    as [[[[]|err] s1] t1] eqn:Hensure.
  - destruct (PriceMonitor.poll_prices_for_companies e _ s1)
      as [[[[]|err] s2] t2] eqn:Hpoll;
      (do 3 eexists; split; [reflexivity|]);
      apply Forall_app; split;
      eauto using ensure_trace, poll_trace.
  - do 3 eexists; split; [reflexivity|]. eauto using ensure_trace.
Qed.


Lemma no_dispatch_in_provider_trace (t : list event) :
  Forall (fun ev => is_provider_or_print ev = true) t ->
  filter is_dispatch t = [].
Proof.
  induction 1 as [|ev t Hev _ IH]; [reflexivity|].
  destruct ev; try discriminate; cbn; exact IH.
Qed.

(** The handler of the loop: a cycle that raised is logged and followed by a
    sleep of 60 seconds, and the turn itself ends normally. *)
Lemma iteration_recovers cfg e self err self1 t1 :
  PriceMonitor.cycle cfg e self = (Raise err, self1, t1) ->
  PriceMonitor.iteration cfg e self
  = (Ok tt, self1, t1 ++ [EvLogError err; EvSleep 60]).
Proof.
  intros Hcycle. unfold PriceMonitor.iteration, try_except.
  rewrite Hcycle. reflexivity.
Qed.



(** A symbol with a price from the provider and a cached previous close never
    gets through its turn of the polling loop. *)
Lemma poll_company_raises_when_cached e c self current prev_close :
  AlphaVantageApi.read AlphaVantageApi.first_close
    (net e "TIME_SERIES_INTRADAY" (symbol c)) = Ok current ->
  mjoin (PriceMonitor.previous_closes self !! symbol c) = Some prev_close ->
  exists err t, PriceMonitor.poll_company e c self = (Raise err, self, t).
Proof.
  intros Hcur Hprev. rewrite poll_company_run, Hcur, Hprev. cbv zeta.
  destruct (PriceMonitor.percent_change current prev_close); eauto.
Qed.

Lemma poll_raises_when_cached e companies self c current prev_close :
  c ∈ companies ->
  AlphaVantageApi.read AlphaVantageApi.first_close
    (net e "TIME_SERIES_INTRADAY" (symbol c)) = Ok current ->
  mjoin (PriceMonitor.previous_closes self !! symbol c) = Some prev_close ->
  exists err t,
    PriceMonitor.poll_prices_for_companies e companies self
    = (Raise err, self, t).
Proof.
  intros Hin Hcur Hprev. unfold PriceMonitor.poll_prices_for_companies.
  induction companies as [|x companies IH]; [inversion Hin|].
  cbn [for_each]. unfold bind.
  destruct (PriceMonitor.poll_company e x self) as [[[[]|ex] sx] tx] eqn:Hx.
  - pose proof (poll_company_keeps_state _ _ _ _ _ _ Hx) as ->.
    apply elem_of_cons in Hin as [->|Hin].
    + destruct (poll_company_raises_when_cached _ _ _ _ _ Hcur Hprev)
        as (err & t & Hc). congruence.
    + destruct (IH Hin) as (err & t & ->). eauto.
  - pose proof (poll_company_keeps_state _ _ _ _ _ _ Hx) as ->. eauto.
Qed.

(** C3, as the code has it.  In the loop as [main] wires it, take a cycle
    with the US market open and a company [c] of the list for which the
    provider returns a current price and whose previous close is in the
    cache when the polling starts.  Then (1) the turn of the polling loop
    for [c] never completes: for a previous close that is not zero it prints
    the change and calls [check_alerts], which [PriceMonitor] does not
    define, and raises AttributeError; for a previous close of zero the
    division raises ZeroDivisionError before that, with nothing printed and
    [check_alerts] not looked up; and (2) the cycle raises, in the refresh
    or else in the polling pass, so that it ends in the error branch, logged
    and followed by the sleep of 60 seconds, with no batch of alerts handed
    over anywhere in its trace. *)
Theorem priced_symbol_ends_cycle_in_error cfg e self c current prev_close :
  PriceMonitor.get_active_markets cfg <> [] ->
  c ∈ StockConfig.get_companies cfg "us" ->
  AlphaVantageApi.read AlphaVantageApi.first_close
    (net e "TIME_SERIES_INTRADAY" (symbol c)) = Ok (Some current) ->
  (forall s1 t1,
      PriceMonitor.ensure_previous_closes cfg e self = (Ok tt, s1, t1) ->
      mjoin (PriceMonitor.previous_closes s1 !! symbol c) = Some prev_close) ->
  (forall s,
      mjoin (PriceMonitor.previous_closes s !! symbol c) = Some prev_close ->
      PriceMonitor.poll_company e c s
      = if PrimFloat.eqb prev_close 0
        then (Raise ZeroDivisionError, s,
              [EvRequest "TIME_SERIES_INTRADAY" (symbol c)])
        else (Raise (AttributeError "check_alerts"), s,
              [EvRequest "TIME_SERIES_INTRADAY" (symbol c);
               EvPrint (symbol c) (Some current)
                 ((current - prev_close) / prev_close * 100)%float]))
  /\ (exists err self' t,
        PriceMonitor.cycle cfg e self = (Raise err, self', t)
        /\ (PriceMonitor.ensure_previous_closes cfg e self
            = (Raise err, self', t)
            \/ exists t1 t2,
                PriceMonitor.ensure_previous_closes cfg e self
                = (Ok tt, self', t1)
                /\ PriceMonitor.poll_prices_for_companies e
                     (StockConfig.get_companies cfg "us") self'
                   = (Raise err, self', t2)
                /\ t = t1 ++ t2)
        /\ PriceMonitor.iteration cfg e self
           = (Ok tt, self', t ++ [EvLogError err; EvSleep 60])
        /\ filter is_dispatch (t ++ [EvLogError err; EvSleep 60]) = []).
Proof.
  intros Hopen Hin Hcur Hcached. split.
  - intros s Hprev. rewrite poll_company_run, Hcur, Hprev.
    cbv zeta. unfold PriceMonitor.percent_change.
    destruct (PrimFloat.eqb prev_close 0); reflexivity.
  - destruct (active_cycle_raises cfg e self Hopen)
      as (err & self' & t & Hcycle & Ht).
    exists err, self', t. split; [exact Hcycle|]. split; [|split].
    + rewrite (active_cycle_run _ _ _ Hopen) in Hcycle.
      destruct (PriceMonitor.ensure_previous_closes cfg e self)
        as [[[[]|err1] s1] t1] eqn:Hensure.
      * right.
        destruct (poll_raises_when_cached e _ s1 c _ _ Hin Hcur
                    (Hcached s1 t1 eq_refl)) as (err2 & t2 & Hpoll).
        rewrite Hpoll in Hcycle. injection Hcycle as <- <- <-. eauto.
      * left. exact Hcycle.
    + apply iteration_recovers, Hcycle.
    + rewrite filter_app, (no_dispatch_in_provider_trace t Ht). reflexivity.
Qed.

(** ** A provider failure inside a pass *)

(** The refresh loop over companies whose previous close the provider
    returns: one request each, the date stamp untouched. *)
Lemma refresh_loop_ok (e : env) (cs : list company) :
  (forall c, c ∈ cs ->
     exists v, AlphaVantageApi.read (AlphaVantageApi.close_on (yesterday e))
                 (net e "TIME_SERIES_DAILY" (symbol c)) = Ok v) ->
  forall self : PriceMonitor.state,
  exists self1,
    for_each cs (fun company =>
      close ← AlphaVantageApi.get_yesterday_close (net e) (yesterday e)
                (symbol company);
      modify (PriceMonitor.set_previous_close (symbol company) close)) self
    = (Ok tt, self1, requests_of "TIME_SERIES_DAILY" cs)
    /\ PriceMonitor.previous_close_date self1
       = PriceMonitor.previous_close_date self.
Proof.
  induction cs as [|c cs IH]; intros Hok self.
  - exists self. split; reflexivity.
  - destruct (Hok c) as [v Hv]; [left|].
    destruct (IH (fun c' Hc' => Hok c' (list_elem_of_further _ _ _ Hc'))
                (PriceMonitor.set_previous_close (symbol c) v self))
      as (self1 & Hloop & Hdate).
    exists self1. split; [|exact Hdate].
    cbn [for_each]. unfold bind at 1.
    rewrite refresh_company_run, Hv. cbv beta iota zeta.
    rewrite Hloop. reflexivity.
Qed.

(** The polling loop over companies with a price but no cached previous
    close: one request each, nothing else. *)
Lemma poll_loop_ok (e : env) (cs : list company) (self : PriceMonitor.state) :
  (forall c, c ∈ cs ->
     (exists v, AlphaVantageApi.read AlphaVantageApi.first_close
                  (net e "TIME_SERIES_INTRADAY" (symbol c)) = Ok v)
     /\ mjoin (PriceMonitor.previous_closes self !! symbol c) = None) ->
  PriceMonitor.poll_prices_for_companies e cs self
  = (Ok tt, self, requests_of "TIME_SERIES_INTRADAY" cs).
Proof.
  unfold PriceMonitor.poll_prices_for_companies.
  induction cs as [|c cs IH]; intros Hok; [reflexivity|].
  destruct (Hok c) as [[v Hv] Hnone]; [left|].
  cbn [for_each]. unfold bind.
  rewrite poll_company_run, Hv, Hnone. cbv beta iota zeta.
  rewrite IH; [reflexivity|].
  intros c' Hc'. apply Hok. right. exact Hc'.
Qed.

Lemma requests_of_snoc function cs c :
  requests_of function (cs ++ [c])
  = requests_of function cs ++ [EvRequest function (symbol c)].
Proof. unfold requests_of. rewrite map_app. reflexivity. Qed.

(** C2, as the code has it.  A provider failure for the company [c] stops
    the pass it occurs in: the companies listed after [c] are not requested
    at all, whatever they are.  In the refresh the exception leaves the date
    stamp as it was, so that the next cycle starts the refresh again; in the
    polling it leaves the state as it was.  With a market open, the turn of
    the loop ends at its handler: the error is logged and the loop sleeps 60
    seconds. *)
Theorem provider_failure_aborts_the_pass cfg e self pre c post err :
  StockConfig.get_companies cfg "us" = pre ++ c :: post ->
  (PriceMonitor.previous_close_date self <> Some (today e) ->
   (forall c', c' ∈ pre ->
      exists v, AlphaVantageApi.read (AlphaVantageApi.close_on (yesterday e))
                  (net e "TIME_SERIES_DAILY" (symbol c')) = Ok v) ->
   AlphaVantageApi.read (AlphaVantageApi.close_on (yesterday e))
     (net e "TIME_SERIES_DAILY" (symbol c)) = Raise err ->
   exists self1,
     PriceMonitor.ensure_previous_closes cfg e self
     = (Raise err, self1, requests_of "TIME_SERIES_DAILY" (pre ++ [c]))
     /\ PriceMonitor.previous_close_date self1
        = PriceMonitor.previous_close_date self
     /\ (PriceMonitor.get_active_markets cfg <> [] ->
         PriceMonitor.iteration cfg e self
         = (Ok tt, self1,
            requests_of "TIME_SERIES_DAILY" (pre ++ [c])
            ++ [EvLogError err; EvSleep 60])))
  /\ ((forall c', c' ∈ pre ->
         (exists v, AlphaVantageApi.read AlphaVantageApi.first_close
                      (net e "TIME_SERIES_INTRADAY" (symbol c')) = Ok v)
         /\ mjoin (PriceMonitor.previous_closes self !! symbol c') = None) ->
      AlphaVantageApi.read AlphaVantageApi.first_close
        (net e "TIME_SERIES_INTRADAY" (symbol c)) = Raise err ->
      PriceMonitor.poll_prices_for_companies e (pre ++ c :: post) self
      = (Raise err, self, requests_of "TIME_SERIES_INTRADAY" (pre ++ [c]))
      /\ (PriceMonitor.get_active_markets cfg <> [] ->
          PriceMonitor.previous_close_date self = Some (today e) ->
          PriceMonitor.iteration cfg e self
          = (Ok tt, self,
             requests_of "TIME_SERIES_INTRADAY" (pre ++ [c])
             ++ [EvLogError err; EvSleep 60]))).
Proof.
  intros Hlist. split.
  - intros Hstale Hpre Hfail.
    destruct (refresh_loop_ok e pre Hpre self) as (self1 & Hloop & Hdate).
    assert (PriceMonitor.ensure_previous_closes cfg e self
            = (Raise err, self1, requests_of "TIME_SERIES_DAILY" (pre ++ [c])))
      as Hensure.
    { unfold PriceMonitor.ensure_previous_closes.
      unfold mbind at 1. unfold prog_bind, bind, gets.
      rewrite bool_decide_eq_false_2 by exact Hstale.
      unfold mbind at 1. unfold prog_bind, bind.
      rewrite Hlist.
      erewrite for_each_raise_at; [|exact Hloop|].
      - rewrite requests_of_snoc. reflexivity.
      - rewrite refresh_company_run, Hfail. reflexivity. }
    exists self1. split; [exact Hensure|]. split; [exact Hdate|].
    intros Hopen. apply iteration_recovers.
    rewrite (active_cycle_run _ _ _ Hopen), Hensure. reflexivity.
  - intros Hpre Hfail.
    assert (PriceMonitor.poll_prices_for_companies e (pre ++ c :: post) self
            = (Raise err, self,
               requests_of "TIME_SERIES_INTRADAY" (pre ++ [c]))) as Hpoll.
    { unfold PriceMonitor.poll_prices_for_companies.
      erewrite for_each_raise_at; [|apply (poll_loop_ok e pre self Hpre)|].
      - rewrite requests_of_snoc. reflexivity.
      - rewrite poll_company_run, Hfail. reflexivity. }
    split; [exact Hpoll|].
    intros Hopen Hfresh. apply iteration_recovers.
    rewrite (active_cycle_run _ _ _ Hopen).
    rewrite (ensure_previous_closes_fresh _ _ _ Hfresh), Hlist, Hpoll.
    reflexivity.
Qed.

(** ** The alert decision of [StockMonitor] *)

Lemma should_send_alert_run clock sym alert_type self :
  StockMonitor.should_send_alert clock sym alert_type self =
  match StockMonitor.alert_cooldown self
        !! StockMonitor.cooldown_key sym alert_type with
  | None => (Ok true, self, [])
  | Some last_alert =>
      (Ok (bool_decide
             (StockMonitor.cooldown_of alert_type
              < StockMonitor.timedelta_seconds
                  (clock (StockMonitor.clock_reads self) - last_alert))),
       StockMonitor.tick self, [])
  end.
Proof.
  unfold StockMonitor.should_send_alert, mbind, prog_bind, bind, gets.
  destruct (_ !! _); reflexivity.
Qed.

(** The cooldown check always answers, touches neither dictionary and leaves
    no event. *)
Lemma should_send_alert_answers clock sym alert_type self :
  exists send self1,
    StockMonitor.should_send_alert clock sym alert_type self
    = (Ok send, self1, [])
    /\ StockMonitor.cache self1 = StockMonitor.cache self
    /\ StockMonitor.alert_cooldown self1 = StockMonitor.alert_cooldown self.
Proof.
  rewrite should_send_alert_run. destruct (_ !! _); eauto.
Qed.

Lemma set_alert_cooldown_run clock sym alert_type self :
  StockMonitor.set_alert_cooldown clock sym alert_type self
  = (Ok tt,
     StockMonitor.set_cooldown (StockMonitor.cooldown_key sym alert_type)
       (clock (StockMonitor.clock_reads self)) (StockMonitor.tick self),
     []).
Proof. reflexivity. Qed.

(** The loop body on a symbol that passes the configuration test and has a
    cached entry with a non-zero previous close, its company having [cond]
    as first condition: an alert is appended exactly when the change reaches
    the threshold of [cond] and the cooldown check answers [send]. *)
Lemma process_symbol_cached cfg clock sym data cached c cond rest alerts self
    send self1 :
  StockMonitor.get_company_config cfg sym = Some c ->
  enabled (price_alerts c) = true ->
  conditions (price_alerts c) = cond :: rest ->
  StockMonitor.cache self !! sym = Some cached ->
  PrimFloat.eqb (previous_close cached) 0 = false ->
  StockMonitor.should_send_alert clock sym "price" self
  = (Ok send, self1, []) ->
  let change :=
    ((price data - previous_close cached) / previous_close cached * 100)%float
  in
  exists self',
    StockMonitor.process_symbol cfg clock (sym, data) alerts self
    = (Ok (if PrimFloat.leb (threshold_percent cond) (PrimFloat.abs change)
              && send
           then alerts ++ [StockMonitor.price_alert sym c data change]
           else alerts),
       self', [])
    /\ StockMonitor.cache self' = <[sym := data]> (StockMonitor.cache self).
Proof.
  intros Hcfg Hen Hconds Hcached Hnonzero Hsend change.
  assert (StockMonitor.cache self1 = StockMonitor.cache self) as Hcache.
  { pose proof (should_send_alert_answers clock sym "price" self)
      as (send' & s' & Hrun & Hcache & _).
    rewrite Hsend in Hrun. injection Hrun as _ <-. exact Hcache. }
  unfold StockMonitor.process_symbol. rewrite Hcfg, Hen. cbn [negb].
  unfold mbind at 1. unfold prog_bind, bind, gets. rewrite Hcached.
  unfold StockMonitor.change_percent, StockMonitor.first_threshold.
  rewrite Hnonzero, Hconds. cbn [lift].
  unfold mbind, prog_bind, bind, ret, modify. cbn [app].
  fold change.
  destruct (PrimFloat.leb (threshold_percent cond) (PrimFloat.abs change)).
  - rewrite Hsend. destruct send; cbn.
    + rewrite set_alert_cooldown_run. cbn. eexists. split; [reflexivity|].
      cbn. rewrite Hcache. reflexivity.
    + eexists. split; [reflexivity|]. cbn. rewrite Hcache. reflexivity.
  - cbn. eauto.
Qed.

(** What one turn of the loop of [process_price_updates] can do: it leaves
    no event, touches the cache at its own symbol only, and either keeps the
    list of alerts or appends one alert, for its own symbol, which had a
    cached entry and whose change reaches the threshold of the company's
    first condition. *)
Lemma process_symbol_step cfg clock sym data alerts self r self' t :
  StockMonitor.process_symbol cfg clock (sym, data) alerts self = (r, self', t) ->
  t = []
  /\ (forall k, k <> sym ->
        StockMonitor.cache self' !! k = StockMonitor.cache self !! k)
  /\ (forall alerts', r = Ok alerts' ->
        alerts' = alerts
        \/ exists c cached cond rest change,
             StockMonitor.get_company_config cfg sym = Some c
             /\ StockMonitor.cache self !! sym = Some cached
             /\ conditions (price_alerts c) = cond :: rest
             /\ PrimFloat.leb (threshold_percent cond) (PrimFloat.abs change)
                = true
             /\ alerts'
                = alerts ++ [StockMonitor.price_alert sym c data change]).
Proof.
  unfold StockMonitor.process_symbol.
  destruct (StockMonitor.get_company_config cfg sym) as [c|] eqn:Hcfg;
    [|intros [= <- <- <-]; split; [|split]; auto; intros ? [= <-]; auto].
  destruct (enabled (price_alerts c)); cbn [negb];
    [|intros [= <- <- <-]; split; [|split]; auto; intros ? [= <-]; auto].
  unfold mbind at 1. unfold prog_bind, bind, gets.
  destruct (StockMonitor.cache self !! sym) as [cached|] eqn:Hcached.
  - unfold StockMonitor.change_percent, StockMonitor.first_threshold.
    destruct (PrimFloat.eqb (previous_close cached) 0); cbn [lift];
      [intros [= <- <- <-]; split; [|split]; auto; discriminate|].
    destruct (conditions (price_alerts c)) as [|cond rest] eqn:Hconds;
      cbn [lift];
      [intros [= <- <- <-]; split; [|split]; auto; discriminate|].
    unfold mbind, prog_bind, bind, ret, modify. cbn [app].
    destruct (PrimFloat.leb (threshold_percent cond) _) eqn:Hreached.
    + rewrite should_send_alert_run.
      destruct (StockMonitor.alert_cooldown self !! _) as [last|];
        [destruct (bool_decide _)|];
        cbn; intros [= <- <- <-];
        (split; [reflexivity|]);
        (split; [intros k Hk; cbn; apply lookup_insert_ne; congruence|]);
        intros ? [= <-]; eauto 12.
    + cbn. intros [= <- <- <-].
      split; [reflexivity|].
      split; [intros k Hk; cbn; apply lookup_insert_ne; congruence|].
      intros ? [= <-]; auto.
  - cbn. intros [= <- <- <-].
    split; [reflexivity|].
    split; [intros k Hk; cbn; apply lookup_insert_ne; congruence|].
    intros ? [= <-]; auto.
Qed.

(** The loop of [process_price_updates]: no event, the cache changed at the
    symbols of [stock_data] only, and the alerts it appends come one per
    item at most, in the items' order, each for a symbol that had a cached
    entry and each reaching the first threshold of its company. *)
Lemma process_loop cfg clock stock_data :
  forall alerts self r self' t,
    for_fold stock_data alerts (StockMonitor.process_symbol cfg clock) self
    = (r, self', t) ->
    t = []
    /\ (forall k, k ∉ stock_data.*1 ->
          StockMonitor.cache self' !! k = StockMonitor.cache self !! k)
    /\ (forall alerts', r = Ok alerts' ->
          exists new,
            alerts' = alerts ++ new
            /\ Forall (fun a => reaches_first_threshold a = true) new
            /\ sublist (map alert_symbol new) stock_data.*1
            /\ (NoDup stock_data.*1 ->
                Forall (fun a => is_Some (StockMonitor.cache self
                                          !! alert_symbol a)) new)).
Proof.
  induction stock_data as [|[sym data] stock_data IH];
    intros alerts self r self' t.
  - cbn. intros [= <- <- <-]. split; [reflexivity|]. split; [auto|].
    intros ? [= <-]. exists []. rewrite app_nil_r.
    repeat split; constructor.
  - cbn [for_fold]. unfold bind.
    destruct (StockMonitor.process_symbol cfg clock (sym, data) alerts self)
      as [[[alerts1|err] s1] t1] eqn:Hstep.
    + destruct (process_symbol_step _ _ _ _ _ _ _ _ _ Hstep)
        as (-> & Hframe1 & Hnew1).
      destruct (for_fold stock_data alerts1 _ s1) as [[r2 s2] t2] eqn:Hrest.
      destruct (IH _ _ _ _ _ Hrest) as (-> & Hframe2 & Hnew2).
      intros [= <- <- <-]. split; [reflexivity|]. split.
      * intros k Hk. cbn in Hk. apply not_elem_of_cons in Hk as [Hne Hk].
        rewrite Hframe2, Hframe1 by assumption. reflexivity.
      * intros alerts' ->.
        destruct (Hnew2 _ eq_refl) as (new2 & -> & Hreach2 & Hsub2 & Hcached2).
        assert (NoDup ((sym, data) :: stock_data).*1 ->
                Forall (fun a => is_Some (StockMonitor.cache self
                                          !! alert_symbol a)) new2) as Hold.
        { cbn. intros Hnodup. apply NoDup_cons in Hnodup as [Hfresh Hnodup].
          specialize (Hcached2 Hnodup).
          rewrite Forall_forall in Hcached2 |- *. intros a Ha.
          rewrite <- Hframe1; [apply Hcached2, Ha|].
          intros Heq. apply Hfresh. rewrite <- Heq.
          eapply elem_of_sublist; [|exact Hsub2].
          apply (list_elem_of_fmap_2 alert_symbol), Ha. }
        destruct (Hnew1 _ eq_refl)
          as [->|(c & cached & cond & rest & change
                  & Hcfg & Hcached & Hconds & Hreach & ->)].
        -- exists new2. split; [reflexivity|]. split; [exact Hreach2|].
           split; [cbn; apply sublist_cons, Hsub2|exact Hold].
        -- exists (StockMonitor.price_alert sym c data change :: new2).
           split; [rewrite <- app_assoc; reflexivity|].
           split; [|split].
           ++ constructor; [|exact Hreach2].
              unfold reaches_first_threshold. cbn. rewrite Hconds.
              exact Hreach.
           ++ cbn. apply sublist_skip, Hsub2.
           ++ intros Hnodup. constructor; [|apply Hold, Hnodup].
              cbn. rewrite Hcached. eauto.
    + destruct (process_symbol_step _ _ _ _ _ _ _ _ _ Hstep)
        as (-> & Hframe1 & _).
      intros [= <- <- <-]. split; [reflexivity|]. split; [|discriminate].
      intros k Hk. cbn in Hk. apply not_elem_of_cons in Hk as [Hne Hk].
      apply Hframe1, Hne.
Qed.

(** A call of [send_alerts_batch] with a batch that is not empty leaves the
    event of the call and raises at the first alert it formats. *)
Lemma send_alerts_batch_run a alerts (self : StockMonitor.state) :
  StockMonitor.send_alerts_batch (a :: alerts) self
  = (Raise (AttributeError "format_alert"), self,
     [EvSendAlerts (a :: alerts)]).
Proof. reflexivity. Qed.

(** A batch of alerts is handed over only as the list the loop built,
    starting from the empty one. *)
Lemma dispatched_batch cfg clock stock_data market self r self' t alerts :
  StockMonitor.process_price_updates cfg clock stock_data market self
  = (r, self', t) ->
  EvSendAlerts alerts ∈ t ->
  for_fold stock_data [] (StockMonitor.process_symbol cfg clock) self
  = (Ok alerts, self', []).
Proof.
  unfold StockMonitor.process_price_updates.
  unfold mbind at 1. unfold prog_bind at 1. unfold bind at 1.
  destruct (for_fold stock_data [] _ self) as [[[built|err] s1] t1] eqn:Hloop.
  - destruct (process_loop _ _ _ _ _ _ _ _ Hloop) as (-> & _).
    destruct built as [|a built].
    + cbn. intros [= <- <- <-] Hin. inversion Hin.
    + rewrite send_alerts_batch_run. cbn.
      intros [= <- <- <-] Hin. apply list_elem_of_singleton in Hin.
      injection Hin as ->. reflexivity.
  - destruct (process_loop _ _ _ _ _ _ _ _ Hloop) as (-> & _).
    intros [= <- <- <-] Hin. inversion Hin.
Qed.

(** A positive float is not zero. *)
Lemma positive_is_nonzero (x : float) :
  PrimFloat.ltb 0 x = true -> PrimFloat.eqb x 0 = false.
Proof.
  rewrite FloatAxioms.ltb_spec, FloatAxioms.eqb_spec.
  change (Prim2SF 0%float) with (S754_zero false).
  destruct (Prim2SF x) as [sign|sign| |sign mantissa exponent];
    try destruct sign; cbn; congruence.
Qed.

(** C4, as the code has it.  For a symbol that passes the configuration
    test, with a cached entry whose previous close is positive, the turn of
    the loop appends a price alert if and only if the magnitude of
    [(price - previous_close) / previous_close * 100] reaches the
    [threshold_percent] of the company's first condition and the cooldown
    check lets it through (as it does when no alert was recorded for the
    symbol).  The direction of the condition plays no part: the statement
    holds for every [cond], and its right-hand side reads the threshold only. *)
Theorem alert_iff_first_threshold_reached cfg clock sym data cached c cond rest
    alerts self :
  StockMonitor.get_company_config cfg sym = Some c ->
  enabled (price_alerts c) = true ->
  conditions (price_alerts c) = cond :: rest ->
  StockMonitor.cache self !! sym = Some cached ->
  PrimFloat.ltb 0 (previous_close cached) = true ->
  exists send self1 self',
    StockMonitor.should_send_alert clock sym "price" self
    = (Ok send, self1, [])
    /\ (StockMonitor.alert_cooldown self
        !! StockMonitor.cooldown_key sym "price" = None -> send = true)
    /\ StockMonitor.process_symbol cfg clock (sym, data) alerts self
       = (Ok (if PrimFloat.leb (threshold_percent cond)
                   (PrimFloat.abs
                      ((price data - previous_close cached)
                       / previous_close cached * 100)%float)
                 && send
              then alerts
                   ++ [StockMonitor.price_alert sym c data
                         ((price data - previous_close cached)
                          / previous_close cached * 100)%float]
              else alerts),
          self', []).
Proof.
  intros Hcfg Hen Hconds Hcached Hpos.
  destruct (should_send_alert_answers clock sym "price" self)
    as (send & self1 & Hsend & _).
  destruct (process_symbol_cached cfg clock sym data cached c cond rest alerts
              self send self1 Hcfg Hen Hconds Hcached
              (positive_is_nonzero _ Hpos) Hsend) as (self' & Hrun & _).
  exists send, self1, self'. split; [exact Hsend|]. split; [|exact Hrun].
  intros Hnone. rewrite should_send_alert_run, Hnone in Hsend.
  injection Hsend as <- _. reflexivity.
Qed.

(** C6, as the code has it.  Of the conditions configured for a symbol only
    the first is evaluated: when the change does not reach the threshold of
    the first condition the turn appends no alert, whatever the other
    conditions are; and every batch that is handed over holds at most one
    alert per symbol, each with a change that reaches the first threshold of
    its company. *)
Theorem only_first_condition_is_evaluated cfg clock :
  (forall sym data cached c cond rest alerts self,
      StockMonitor.get_company_config cfg sym = Some c ->
      enabled (price_alerts c) = true ->
      conditions (price_alerts c) = cond :: rest ->
      StockMonitor.cache self !! sym = Some cached ->
      PrimFloat.eqb (previous_close cached) 0 = false ->
      PrimFloat.leb (threshold_percent cond)
        (PrimFloat.abs ((price data - previous_close cached)
                        / previous_close cached * 100)%float) = false ->
      exists self',
        StockMonitor.process_symbol cfg clock (sym, data) alerts self
        = (Ok alerts, self', []))
  /\ (forall stock_data market self r self' t alerts,
        NoDup stock_data.*1 ->
        StockMonitor.process_price_updates cfg clock stock_data market self
        = (r, self', t) ->
        EvSendAlerts alerts ∈ t ->
        NoDup (map alert_symbol alerts)
        /\ Forall (fun a => reaches_first_threshold a = true) alerts).
Proof.
  split.
  - intros sym data cached c cond rest alerts self
      Hcfg Hen Hconds Hcached Hnonzero Hbelow.
    destruct (should_send_alert_answers clock sym "price" self)
      as (send & self1 & Hsend & _).
    destruct (process_symbol_cached cfg clock sym data cached c cond rest
                alerts self send self1 Hcfg Hen Hconds Hcached Hnonzero Hsend)
      as (self' & Hrun & _).
    cbv zeta in Hrun. rewrite Hbelow in Hrun. eauto.
  - intros stock_data market self r self' t alerts Hnodup Hrun Hsent.
    pose proof (dispatched_batch _ _ _ _ _ _ _ _ _ Hrun Hsent) as Hloop.
    destruct (process_loop _ _ _ _ _ _ _ _ Hloop) as (_ & _ & Hnew).
    destruct (Hnew _ eq_refl) as (new & Heq & Hreach & Hsub & _).
    cbn in Heq. subst new. split; [|exact Hreach].
    eapply sublist_NoDup; [exact Hnodup|exact Hsub].
Qed.

(** C10, as the code has it.  The first observation of a symbol never
    produces an alert.  When the symbol has no cached entry, its turn of the
    loop skips the evaluation altogether: it appends nothing to the alerts,
    raises nothing, leaves no event, does not read the clock and leaves the
    cooldowns and the cache entries of the other symbols alone.  For a
    symbol whose company is configured with price alerts enabled, the cache
    then holds the observation under the symbol; a symbol that fails that
    test (lines 68-70) is skipped before the cache is consulted, and still
    has no entry.  And over a whole call, no batch that is handed over holds
    an alert for a symbol that had no cached entry when the call started. *)
Theorem first_observation_never_alerts cfg clock :
  (forall sym data alerts self,
      StockMonitor.cache self !! sym = None ->
      exists self',
        StockMonitor.process_symbol cfg clock (sym, data) alerts self
        = (Ok alerts, self', [])
        /\ StockMonitor.cache self' !! sym
           = (if monitored cfg sym then Some data else None)
        /\ (forall k, k <> sym ->
              StockMonitor.cache self' !! k = StockMonitor.cache self !! k)
        /\ StockMonitor.alert_cooldown self'
           = StockMonitor.alert_cooldown self
        /\ StockMonitor.clock_reads self' = StockMonitor.clock_reads self)
  /\ (forall stock_data market self r self' t alerts sym,
        NoDup stock_data.*1 ->
        StockMonitor.cache self !! sym = None ->
        StockMonitor.process_price_updates cfg clock stock_data market self
        = (r, self', t) ->
        EvSendAlerts alerts ∈ t ->
        sym ∉ map alert_symbol alerts).
Proof.
  split.
  - intros sym data alerts self Hnone.
    unfold StockMonitor.process_symbol, monitored.
    destruct (StockMonitor.get_company_config cfg sym) as [c|].
    2: { exists self. rewrite Hnone. auto 10. }
    destruct (enabled (price_alerts c)); cbn [negb].
    2: { exists self. rewrite Hnone. auto 10. }
    unfold mbind, prog_bind, bind, gets. rewrite Hnone. cbn.
    exists (StockMonitor.set_cache sym data self).
    split; [reflexivity|]. cbn. split; [apply lookup_insert_eq|].
    split; [|auto]. intros k Hk. apply lookup_insert_ne. congruence.
  - intros stock_data market self r self' t alerts sym Hnodup Hnone Hrun Hsent.
    pose proof (dispatched_batch _ _ _ _ _ _ _ _ _ Hrun Hsent) as Hloop.
    destruct (process_loop _ _ _ _ _ _ _ _ Hloop) as (_ & _ & Hnew).
    destruct (Hnew _ eq_refl) as (new & Heq & _ & _ & Hcached).
    cbn in Heq. subst new. specialize (Hcached Hnodup).
    intros Hin. apply list_elem_of_fmap in Hin as (a & -> & Ha).
    rewrite Forall_forall in Hcached. specialize (Hcached a Ha).
    rewrite Hnone in Hcached. destruct Hcached as [? [=]].
Qed.

(** ** A reference price of zero *)

(** C1, as the code has it.  For a symbol whose reference price equals 0
    no condition triggers and no alert is produced, but by an exception: the
    division of the percent change raises ZeroDivisionError, and nothing
    guards it per symbol.  In [PriceMonitor] the turn of the polling loop
    raises after its request, and so does the pass, without reaching the
    symbols that follow; in [StockMonitor] the turn raises and the call of
    [process_price_updates] with it, before any batch is handed over. *)
Theorem zero_reference_price_raises :
  (forall e c self current prev_close rest,
      AlphaVantageApi.read AlphaVantageApi.first_close
        (net e "TIME_SERIES_INTRADAY" (symbol c)) = Ok (Some current) ->
      mjoin (PriceMonitor.previous_closes self !! symbol c) = Some prev_close ->
      PrimFloat.eqb prev_close 0 = true ->
      PriceMonitor.poll_company e c self
      = (Raise ZeroDivisionError, self,
         [EvRequest "TIME_SERIES_INTRADAY" (symbol c)])
      /\ PriceMonitor.poll_prices_for_companies e (c :: rest) self
         = (Raise ZeroDivisionError, self,
            [EvRequest "TIME_SERIES_INTRADAY" (symbol c)]))
  /\ (forall cfg clock sym data cached c alerts self rest market,
        StockMonitor.get_company_config cfg sym = Some c ->
        enabled (price_alerts c) = true ->
        StockMonitor.cache self !! sym = Some cached ->
        PrimFloat.eqb (previous_close cached) 0 = true ->
        StockMonitor.process_symbol cfg clock (sym, data) alerts self
        = (Raise ZeroDivisionError, self, [])
        /\ StockMonitor.process_price_updates cfg clock ((sym, data) :: rest)
             market self
           = (Raise ZeroDivisionError, self, [])).
Proof.
  split.
  - intros e c self current prev_close rest Hcur Hprev Hzero.
    assert (PriceMonitor.poll_company e c self
            = (Raise ZeroDivisionError, self,
               [EvRequest "TIME_SERIES_INTRADAY" (symbol c)])) as Hturn.
    { rewrite poll_company_run, Hcur, Hprev. cbv zeta.
      unfold PriceMonitor.percent_change. rewrite Hzero. reflexivity. }
    split; [exact Hturn|].
    unfold PriceMonitor.poll_prices_for_companies. cbn [for_each].
    unfold bind. rewrite Hturn. reflexivity.
  - intros cfg clock sym data cached c alerts self rest market
      Hcfg Hen Hcached Hzero.
    assert (forall acc,
              StockMonitor.process_symbol cfg clock (sym, data) acc self
              = (Raise ZeroDivisionError, self, [])) as Hturn.
    { intros acc. unfold StockMonitor.process_symbol.
      rewrite Hcfg, Hen. cbn [negb].
      unfold mbind at 1. unfold prog_bind, bind, gets. rewrite Hcached.
      unfold StockMonitor.change_percent. rewrite Hzero. reflexivity. }
    split; [apply Hturn|].
    unfold StockMonitor.process_price_updates. cbn [for_fold].
    unfold mbind, prog_bind, bind. rewrite Hturn. reflexivity.
Qed.

(** ** The cooldown *)

(** C5 at its failing input.  With a price alert for XYZ recorded at t = 0,
    the check answers no at 500 s and yes at 901 s, as the scenario has it;
    but one day and 500 s after the alert, far beyond the 900 s of the
    cooldown, it answers no again: [timedelta.seconds] is the remainder
    within the day, not the time elapsed.  It also drops the microseconds:
    at 900.5 s the answer is still no. *)
Theorem should_send_alert_wraps_after_a_day :
  (StockMonitor.should_send_alert (fun _ => seconds 500) "XYZ" "price"
     (alerted "XYZ" (seconds 0))).1.1 = Ok false
  /\ (StockMonitor.should_send_alert (fun _ => seconds 901) "XYZ" "price"
        (alerted "XYZ" (seconds 0))).1.1 = Ok true
  /\ (StockMonitor.should_send_alert (fun _ => seconds 86900) "XYZ" "price"
        (alerted "XYZ" (seconds 0))).1.1 = Ok false
  /\ (StockMonitor.should_send_alert (fun _ => 900500000) "XYZ" "price"
        (alerted "XYZ" (seconds 0))).1.1 = Ok false.
Proof. repeat split; vm_compute; reflexivity. Qed.

(** Within a day of the recorded alert, and from whole second to whole
    second, the check is the one the cooldown asks for: it answers yes
    exactly from 901 s on for a price alert. *)
Lemma should_send_alert_within_a_day clock sym self last_alert :
  StockMonitor.alert_cooldown self !! StockMonitor.cooldown_key sym "price"
  = Some last_alert ->
  0 <= clock (StockMonitor.clock_reads self) - last_alert < 86400000000 ->
  (StockMonitor.should_send_alert clock sym "price" self).1.1
  = Ok (bool_decide
          (901000000 <= clock (StockMonitor.clock_reads self) - last_alert)).
Proof.
  intros Hlast Hrange. rewrite should_send_alert_run, Hlast. cbn.
  f_equal. apply bool_decide_ext.
  unfold StockMonitor.timedelta_seconds, StockMonitor.cooldown_of. cbn.
  rewrite (Z.mod_small _ 86400000000) by exact Hrange.
  rewrite bool_decide_eq_true_2 by reflexivity.
  split; intros H.
  - destruct (Z_le_gt_dec 901000000
                (clock (StockMonitor.clock_reads self) - last_alert)) as [|Hlt];
      [assumption|].
    assert ((clock (StockMonitor.clock_reads self) - last_alert) / 1000000
            <= 900); [|lia].
    apply Z.lt_succ_r, Z.div_lt_upper_bound; lia.
  - apply Z.lt_le_trans with (m := 901); [lia|].
    apply Z.div_le_lower_bound; lia.
Qed.

(** ** The claims on concrete inputs *)

(** C1 as stated fails.  XYZ has the reference price 0 and AAA a sound one;
    the provider answers for both.  The polling pass raises
    ZeroDivisionError at XYZ and never requests AAA: the symbol is not
    merely skipped.  [process_price_updates] raises in the same way. *)
Lemma zero_reference_price_is_not_guarded :
  PriceMonitor.poll_prices_for_companies (on_day (provider [] 10)) [XYZ; AAA]
    (refreshed [("XYZ", 0%float); ("AAA", 100%float)])
  = (Raise ZeroDivisionError,
     refreshed [("XYZ", 0%float); ("AAA", 100%float)],
     [EvRequest "TIME_SERIES_INTRADAY" "XYZ"])
  /\ (StockMonitor.process_price_updates (configured [XYZ]) (fun _ => 0)
        [("XYZ", {| price := 10; previous_close := 0 |})] "us"
        (holding "XYZ" 0)).1.1
     = Raise ZeroDivisionError.
Proof. split; vm_compute; reflexivity. Qed.

(** C1 at XYZ with the cached previous close 0 and the price 10. *)
Lemma zero_reference_price_raises_witness :
  PriceMonitor.poll_company (on_day (provider [] 10)) XYZ
    (refreshed [("XYZ", 0%float)])
  = (Raise ZeroDivisionError, refreshed [("XYZ", 0%float)],
     [EvRequest "TIME_SERIES_INTRADAY" (symbol XYZ)]).
Proof.
  apply (proj1 zero_reference_price_raises (on_day (provider [] 10)) XYZ
           (refreshed [("XYZ", 0%float)]) 10%float 0%float []);
    vm_compute; reflexivity.
Defined.

(** C2 as stated fails.  The provider cannot be reached for AAA and answers
    for BBB.  On the first cycle the refresh stops at AAA: the whole turn is
    the request for AAA, the log entry and the sleep of 60 seconds, with no
    request for BBB.  With a refreshed cache the polling pass stops at AAA
    in the same way, although BBB has a price and a reference. *)
Lemma provider_failure_skips_the_other_symbols :
  PriceMonitor.iteration (us_config [AAA; BBB])
    (on_day (provider ["AAA"] 100)) PriceMonitor.init
  = (Ok tt, PriceMonitor.init,
     [EvRequest "TIME_SERIES_DAILY" "AAA"; EvLogError ConnectionError;
      EvSleep 60])
  /\ PriceMonitor.poll_prices_for_companies (on_day (provider ["AAA"] 106))
       [AAA; BBB] (refreshed [("BBB", 100%float)])
     = (Raise ConnectionError, refreshed [("BBB", 100%float)],
        [EvRequest "TIME_SERIES_INTRADAY" "AAA"])
  /\ AlphaVantageApi.read AlphaVantageApi.first_close
       (provider ["AAA"] 106 "TIME_SERIES_INTRADAY" "BBB")
     = Ok (Some 106%float).
Proof. repeat split; vm_compute; reflexivity. Qed.

(** C2 at the list AAA, BBB, XYZ with the provider down for BBB, on a first
    cycle: the refresh requests AAA and BBB and raises; XYZ is not requested. *)
Lemma provider_failure_aborts_the_pass_witness :
  StockConfig.get_companies (us_config [AAA; BBB; XYZ]) "us"
  = [AAA] ++ BBB :: [XYZ]
  /\ exists self1,
       PriceMonitor.ensure_previous_closes (us_config [AAA; BBB; XYZ])
         (on_day (provider ["BBB"] 100)) PriceMonitor.init
       = (Raise ConnectionError, self1,
          requests_of "TIME_SERIES_DAILY" ([AAA] ++ [BBB])).
Proof.
  split; [reflexivity|].
  destruct (proj1 (provider_failure_aborts_the_pass
                     (us_config [AAA; BBB; XYZ])
                     (on_day (provider ["BBB"] 100)) PriceMonitor.init
                     [AAA] BBB [XYZ] ConnectionError eq_refl))
    as (self1 & Hensure & _).
  - vm_compute. discriminate.
  - intros c' Hc'. apply list_elem_of_singleton in Hc' as ->.
    eexists. vm_compute. reflexivity.
  - vm_compute. reflexivity.
  - exists self1. exact Hensure.
Defined.

(** C3 as stated fails.  XYZ has the current price 10 and the cached
    previous close 0, which is not absent.  The turn for XYZ does not reach
    [check_alerts]: the cycle is the request, the log entry of
    ZeroDivisionError and the sleep of 60 seconds, with no line printed. *)
Lemma zero_close_raises_before_check_alerts :
  current_price (on_day (provider [] 10)) "XYZ" = Ok (Some 10%float)
  /\ mjoin (PriceMonitor.previous_closes (refreshed [("XYZ", 0%float)])
            !! "XYZ") = Some 0%float
  /\ PriceMonitor.iteration (us_config [XYZ]) (on_day (provider [] 10))
       (refreshed [("XYZ", 0%float)])
     = (Ok tt, refreshed [("XYZ", 0%float)],
        [EvRequest "TIME_SERIES_INTRADAY" "XYZ";
         EvLogError ZeroDivisionError; EvSleep 60]).
Proof. repeat split; vm_compute; reflexivity. Qed.

(** C3 at XYZ with the price 106 and the cached previous close 100. *)
Lemma priced_symbol_ends_cycle_in_error_witness :
  PriceMonitor.poll_company (on_day (provider [] 106)) XYZ
    (refreshed [("XYZ", 100%float)])
  = (Raise (AttributeError "check_alerts"), refreshed [("XYZ", 100%float)],
     [EvRequest "TIME_SERIES_INTRADAY" (symbol XYZ);
      EvPrint (symbol XYZ) (Some 106%float)
        ((106 - 100) / 100 * 100)%float]).
Proof.
  apply (proj1 (priced_symbol_ends_cycle_in_error (us_config [XYZ])
                  (on_day (provider [] 106)) (refreshed [("XYZ", 100%float)])
                  XYZ 106%float 100%float
                  ltac:(vm_compute; discriminate)
                  ltac:(left)
                  ltac:(vm_compute; reflexivity)
                  ltac:(intros s1 t1 H; vm_compute in H;
                        injection H as <- _; vm_compute; reflexivity)));
    vm_compute; reflexivity.
Defined.

(** C4 as stated fails.  XYZ has one condition, 5 percent upward, and the
    previous close 100.  At the price 90 the change is -10: the
    specification's evaluator does not trigger (the sign is against the
    direction), the code hands over an alert. *)
Lemma falling_price_triggers_upward_condition :
  (StockMonitor.process_price_updates (configured [XYZ]) (fun _ => 0)
     [("XYZ", {| price := 90; previous_close := 100 |})] "us"
     (holding "XYZ" 100)).2
  = [EvSendAlerts
       [StockMonitor.price_alert "XYZ" XYZ
          {| price := 90; previous_close := 100 |} (-10)%float]]
  /\ ThresholdEvaluator.triggers 90 100 (upward 5) = false
  /\ PrimFloat.ltb 0 100 = true.
Proof. repeat split; vm_compute; reflexivity. Qed.

(** C4 on the scenario of the specification: previous close 100, threshold
    5 percent, price 106, no alert sent before; one alert with the change 6. *)
Lemma alert_iff_first_threshold_reached_witness :
  exists self',
    StockMonitor.process_symbol (configured [XYZ]) (fun _ => 0)
      ("XYZ", {| price := 106; previous_close := 100 |}) []
      (holding "XYZ" 100)
    = (Ok [StockMonitor.price_alert "XYZ" XYZ
             {| price := 106; previous_close := 100 |} 6%float],
       self', []).
Proof.
  destruct (alert_iff_first_threshold_reached (configured [XYZ]) (fun _ => 0)
              "XYZ" {| price := 106; previous_close := 100 |}
              {| price := 100; previous_close := 100 |} XYZ (upward 5) [] []
              (holding "XYZ" 100)
              ltac:(vm_compute; reflexivity) ltac:(reflexivity)
              ltac:(reflexivity) ltac:(vm_compute; reflexivity)
              ltac:(vm_compute; reflexivity))
    as (send & self1 & self' & _ & Hnone & Hrun).
  rewrite (Hnone ltac:(vm_compute; reflexivity)) in Hrun.
  exists self'. rewrite Hrun. vm_compute. reflexivity.
Defined.

(** C6 as stated fails.  QRS has the conditions 50 percent and 5 percent, and
    the previous close 100.  At the price 110 the specification's evaluator
    returns the second condition as triggered; the code, which reads the
    first condition only, hands over nothing.  TWO has the conditions 5 and
    8 percent: the evaluator returns both, the code hands over one alert. *)
Lemma later_conditions_are_never_evaluated :
  (StockMonitor.process_price_updates (configured [QRS]) (fun _ => 0)
     [("QRS", {| price := 110; previous_close := 100 |})] "us"
     (holding "QRS" 100)).2 = []
  /\ ThresholdEvaluator.evaluate 110 100 (conditions (price_alerts QRS))
     = [upward 5]
  /\ (StockMonitor.process_price_updates (configured [TWO]) (fun _ => 0)
        [("TWO", {| price := 110; previous_close := 100 |})] "us"
        (holding "TWO" 100)).2
     = [EvSendAlerts
          [StockMonitor.price_alert "TWO" TWO
             {| price := 110; previous_close := 100 |}
             ((110 - 100) / 100 * 100)%float]]
  /\ ThresholdEvaluator.evaluate 110 100 (conditions (price_alerts TWO))
     = [upward 5; upward 8].
Proof. repeat split; vm_compute; reflexivity. Qed.

(** C6 at QRS: the change of 10 percent is below the first threshold of 50. *)
Lemma only_first_condition_is_evaluated_witness :
  exists self',
    StockMonitor.process_symbol (configured [QRS]) (fun _ => 0)
      ("QRS", {| price := 110; previous_close := 100 |}) []
      (holding "QRS" 100)
    = (Ok [], self', []).
Proof.
  apply (proj1 (only_first_condition_is_evaluated (configured [QRS])
                  (fun _ => 0))
           "QRS" {| price := 110; previous_close := 100 |}
           {| price := 100; previous_close := 100 |} QRS (upward 50)
           [upward 5] [] (holding "QRS" 100));
    vm_compute; reflexivity.
Defined.

(** C7 as stated fails.  The provider answers for AAA and cannot be reached
    for BBB.  The first refresh of the day stores the close of AAA and
    raises at BBB, before the date is stamped; the second refresh on the
    same day is no no-op: it requests AAA and BBB again.  In the loop, which
    goes on after the handler, the two turns make the same two requests. *)
Lemma failed_refresh_is_repeated_the_same_day :
  PriceMonitor.ensure_previous_closes (us_config [AAA; BBB])
    (on_day (provider ["BBB"] 100)) PriceMonitor.init
  = (Raise ConnectionError,
     PriceMonitor.set_previous_close "AAA" (Some 100%float) PriceMonitor.init,
     [EvRequest "TIME_SERIES_DAILY" "AAA";
      EvRequest "TIME_SERIES_DAILY" "BBB"])
  /\ PriceMonitor.ensure_previous_closes (us_config [AAA; BBB])
       (on_day (provider ["BBB"] 100))
       (PriceMonitor.set_previous_close "AAA" (Some 100%float)
          PriceMonitor.init)
     = (Raise ConnectionError,
        PriceMonitor.set_previous_close "AAA" (Some 100%float)
          PriceMonitor.init,
        [EvRequest "TIME_SERIES_DAILY" "AAA";
         EvRequest "TIME_SERIES_DAILY" "BBB"])
  /\ (PriceMonitor.monitor_prices (us_config [AAA; BBB])
        [on_day (provider ["BBB"] 100); on_day (provider ["BBB"] 100)]
        PriceMonitor.init).2
     = [EvRequest "TIME_SERIES_DAILY" "AAA";
        EvRequest "TIME_SERIES_DAILY" "BBB";
        EvLogError ConnectionError; EvSleep 60;
        EvRequest "TIME_SERIES_DAILY" "AAA";
        EvRequest "TIME_SERIES_DAILY" "BBB";
        EvLogError ConnectionError; EvSleep 60].
Proof. repeat split; vm_compute; reflexivity. Qed.

(** C7 at XYZ: after a first refresh, a second one on the same day makes no
    request although the provider is by then unreachable. *)
Lemma ensure_previous_closes_twice_same_day_witness :
  today (on_day (provider ["XYZ"] 0)) = today (on_day (provider [] 100))
  /\ PriceMonitor.ensure_previous_closes (us_config [XYZ])
       (on_day (provider ["XYZ"] 0)) (refreshed [("XYZ", 100%float)])
     = (Ok tt, refreshed [("XYZ", 100%float)], []).
Proof.
  split; [reflexivity|].
  apply (ensure_previous_closes_twice_same_day (us_config [XYZ])
           (on_day (provider [] 100)) (on_day (provider ["XYZ"] 0))
           PriceMonitor.init (refreshed [("XYZ", 100%float)])
           [EvRequest "TIME_SERIES_DAILY" "XYZ"]);
    vm_compute; reflexivity.
Defined.

(** C8 with only the Swedish market configured. *)
Lemma closed_markets_sleep_300_witness :
  PriceMonitor.get_active_markets (closed_config [XYZ]) = []
  /\ PriceMonitor.iteration (closed_config [XYZ]) (on_day (provider [] 100))
       PriceMonitor.init
     = (Ok tt, PriceMonitor.init, [EvSleep 300]).
Proof.
  split; [reflexivity|].
  apply (closed_markets_sleep_300 (closed_config [XYZ])
           (on_day (provider [] 100)) PriceMonitor.init).
  reflexivity.
Defined.


(** C10 as stated fails.  ZZZ is unknown to the configuration and OFF has
    its price alerts disabled.  Neither has a cached entry; their first
    observation is not stored: the call returns with the state it started
    from, in which they still have no entry. *)
Lemma unmonitored_observation_is_not_stored :
  StockMonitor.process_price_updates
    (configured [XYZ;
                 {| symbol := "OFF"; name := "OFF";
                    price_alerts :=
                      {| enabled := false; conditions := [upward 5] |};
                    market := None |}])
    (fun _ => 0)
    [("ZZZ", {| price := 106; previous_close := 100 |});
     ("OFF", {| price := 106; previous_close := 100 |})] "us"
    StockMonitor.init
  = (Ok tt, StockMonitor.init, [])
  /\ StockMonitor.cache StockMonitor.init !! "ZZZ" = None
  /\ StockMonitor.cache StockMonitor.init !! "OFF" = None.
Proof. repeat split; vm_compute; reflexivity. Qed.

(** C10 at the first observation of XYZ by a new monitor. *)
Lemma first_observation_never_alerts_witness :
  exists self',
    StockMonitor.process_symbol (configured [XYZ]) (fun _ => 0)
      ("XYZ", {| price := 106; previous_close := 100 |}) [] StockMonitor.init
    = (Ok [], self', [])
    /\ StockMonitor.cache self' !! "XYZ"
       = Some {| price := 106; previous_close := 100 |}.
Proof.
  destruct (proj1 (first_observation_never_alerts (configured [XYZ])
                     (fun _ => 0))
              "XYZ" {| price := 106; previous_close := 100 |} []
              StockMonitor.init ltac:(vm_compute; reflexivity))
    as (self' & Hrun & Hcache & _).
  exists self'. split; [exact Hrun|exact Hcache].
Defined.

(** One hour after the alert the check answers yes. *)
Lemma should_send_alert_within_a_day_witness :
  (StockMonitor.should_send_alert (fun _ => seconds 3600) "XYZ" "price"
     (alerted "XYZ" (seconds 0))).1.1 = Ok true.
Proof.
  apply (should_send_alert_within_a_day (fun _ => seconds 3600) "XYZ"
           (alerted "XYZ" (seconds 0)) (seconds 0)).
  - vm_compute. reflexivity.
  - unfold seconds. cbn. lia.
Defined.

(** With the US market configured, no cycle of the wired loop runs to its
    end: [calculate_wait_time] calls [check_volatility], which
    [PriceMonitor] does not define, so even a cycle whose refresh and
    polling go through raises; every turn ends in the handler's sleep of 60
    seconds and the waits of 180 and 60 seconds for open markets are never
    reached. *)
Theorem open_market_cycle_never_completes cfg e self :
  PriceMonitor.get_active_markets cfg <> [] ->
  exists err self' t,
    PriceMonitor.cycle cfg e self = (Raise err, self', t)
    /\ PriceMonitor.iteration cfg e self
       = (Ok tt, self', t ++ [EvLogError err; EvSleep 60]).
Proof.
  intros Hopen.
  destruct (active_cycle_raises cfg e self Hopen)
    as (err & self' & t & Hcycle & _).
  exists err, self', t. split; [exact Hcycle|].
  apply iteration_recovers, Hcycle.
Qed.

(** With no company at all the cycle still raises, at [check_volatility]. *)
Lemma open_market_cycle_never_completes_witness :
  PriceMonitor.get_active_markets (us_config []) <> []
  /\ exists err self' t,
       PriceMonitor.cycle (us_config []) (on_day (provider [] 100))
         PriceMonitor.init = (Raise err, self', t)
       /\ PriceMonitor.iteration (us_config []) (on_day (provider [] 100))
            PriceMonitor.init
          = (Ok tt, self', t ++ [EvLogError err; EvSleep 60]).
Proof.
  split; [vm_compute; discriminate|].
  apply (open_market_cycle_never_completes (us_config [])
           (on_day (provider [] 100)) PriceMonitor.init).
  vm_compute. discriminate.
Defined.

(** * The rest of the code *)

(** ** More on the loop of [PriceMonitor] *)

(** The refresh loop, when it completes, has stored for every company what
    the provider answered for its symbol and left the other entries alone. *)
Lemma refresh_loop_entries (e : env) (cs : list company) :
  forall (self self1 : PriceMonitor.state) t,
    for_each cs (fun company =>
      close ← AlphaVantageApi.get_yesterday_close (net e) (yesterday e)
                (symbol company);
      modify (PriceMonitor.set_previous_close (symbol company) close)) self
    = (Ok tt, self1, t) ->
    (forall c v, c ∈ cs -> yesterday_close e (symbol c) = Ok v ->
       PriceMonitor.previous_closes self1 !! symbol c = Some v)
    /\ (forall sym, sym ∉ map symbol cs ->
          PriceMonitor.previous_closes self1 !! sym
          = PriceMonitor.previous_closes self !! sym).
Proof.
  induction cs as [|c cs IH]; intros self self1 t.
  - cbn. intros [= <- _]. split; [intros c v Hc; inversion Hc|auto].
  - cbn [for_each]. unfold bind at 1. rewrite refresh_company_run.
    cbv zeta. fold (yesterday_close e (symbol c)).
    destruct (yesterday_close e (symbol c)) as [v|err] eqn:Hv;
      [|discriminate].
    destruct (for_each cs _ _) as [[[[]|err] s2] t2] eqn:Hrest;
      [|discriminate].
    intros [= <- _]. destruct (IH _ _ _ Hrest) as [Hin Hout]. split.
    + intros c' v' Hc' Hv'.
      apply elem_of_cons in Hc' as [->|Hc']; [|eauto].
      destruct (decide (symbol c ∈ map symbol cs)) as [Hdup|Hfresh].
      * apply list_elem_of_fmap in Hdup as (c'' & Heq & Hc'').
        rewrite Heq. apply (Hin c'' v' Hc''). rewrite <- Heq. exact Hv'.
      * rewrite (Hout _ Hfresh). cbn. rewrite lookup_insert_eq. congruence.
    + intros sym Hsym. cbn in Hsym. apply not_elem_of_cons in Hsym as [Hne Hsym].
      rewrite (Hout _ Hsym). cbn. apply lookup_insert_ne. congruence.
Qed.

(** A refresh on a new day, when the provider answers for every company:
    one daily request per company, in the order of the list; the cache holds
    the provider's answer for each of them, keeps what it had for other
    symbols, and is stamped with today's date. *)
Theorem refresh_stores_every_answer cfg e self :
  PriceMonitor.previous_close_date self <> Some (today e) ->
  (forall c, c ∈ StockConfig.get_companies cfg "us" ->
     exists v, yesterday_close e (symbol c) = Ok v) ->
  exists self1,
    PriceMonitor.ensure_previous_closes cfg e self
    = (Ok tt, self1,
       requests_of "TIME_SERIES_DAILY" (StockConfig.get_companies cfg "us"))
    /\ PriceMonitor.previous_close_date self1 = Some (today e)
    /\ (forall c v, c ∈ StockConfig.get_companies cfg "us" ->
          yesterday_close e (symbol c) = Ok v ->
          PriceMonitor.previous_closes self1 !! symbol c = Some v)
    /\ (forall sym, sym ∉ map symbol (StockConfig.get_companies cfg "us") ->
          PriceMonitor.previous_closes self1 !! sym
          = PriceMonitor.previous_closes self !! sym).
Proof.
  intros Hstale Hok.
  destruct (refresh_loop_ok e _ Hok self) as (s1 & Hloop & Hdate).
  destruct (refresh_loop_entries e _ _ _ _ Hloop) as [Hin Hout].
  exists (PriceMonitor.set_previous_close_date (today e) s1).
  split; [|split; [reflexivity|split; [exact Hin|exact Hout]]].
  unfold PriceMonitor.ensure_previous_closes.
  unfold mbind at 1. unfold prog_bind at 1. unfold bind at 1. unfold gets.
  rewrite bool_decide_eq_false_2 by exact Hstale.
  unfold mbind at 1. unfold prog_bind at 1. unfold bind at 1.
  rewrite Hloop. cbn. rewrite app_nil_r. reflexivity.
Qed.

(** A loop whose turns make one request at most makes no more requests than
    it has items. *)
Lemma for_each_request_bound {S A} (body : A -> prog S unit) :
  (forall x s r s' t, body x s = (r, s', t) ->
     (length (filter is_request t) <= 1)%nat) ->
  forall l s r s' t, for_each l body s = (r, s', t) ->
    (length (filter is_request t) <= length l)%nat.
Proof.
  intros Hbody. induction l as [|x l IH]; intros s r s' t.
  - cbn. intros [= _ _ <-]. cbn. lia.
  - cbn [for_each]. unfold bind.
    destruct (body x s) as [[[[]|ex] sx] tx] eqn:Hx.
    + destruct (for_each l body sx) as [[rl sl] tl] eqn:Hl.
      intros [= _ _ <-]. rewrite filter_app, length_app. cbn [length].
      specialize (Hbody _ _ _ _ _ Hx). specialize (IH _ _ _ _ Hl). lia.
    + intros [= _ _ <-]. specialize (Hbody _ _ _ _ _ Hx). cbn [length]. lia.
Qed.

Lemma poll_request_bound e companies self r self' t :
  PriceMonitor.poll_prices_for_companies e companies self = (r, self', t) ->
  (length (filter is_request t) <= length companies)%nat.
Proof.
  apply for_each_request_bound. intros c s r0 s0 t0.
  rewrite poll_company_run. cbv zeta.
  repeat case_match; intros [= _ _ <-]; vm_compute; lia.
Qed.

Lemma ensure_request_bound cfg e self r self' t :
  PriceMonitor.ensure_previous_closes cfg e self = (r, self', t) ->
  (length (filter is_request t)
   <= length (StockConfig.get_companies cfg "us"))%nat.
Proof.
  unfold PriceMonitor.ensure_previous_closes.
  unfold mbind at 1. unfold prog_bind at 1. unfold bind at 1. unfold gets.
  destruct (bool_decide _).
  - cbn. intros [= _ _ <-]. cbn. lia.
  - unfold mbind at 1. unfold prog_bind at 1. unfold bind at 1.
    match goal with |- context [for_each ?l ?b self] =>
      destruct (for_each l b self) as [[[[]|err] s] t0] eqn:Hloop end;
      cbn; intros [= _ _ <-]; rewrite ?app_nil_r;
      revert Hloop; apply for_each_request_bound; intros c s1 r1 s2 t1;
      rewrite refresh_company_run; cbv zeta;
      case_match; intros [= _ _ <-]; vm_compute; lia.
Qed.

(** The provider's budget.  One turn of the loop makes at most two requests
    per monitored company, one for the previous close and one for the
    current price; on a day whose previous closes are cached already, at
    most one per company. *)
Theorem iteration_request_bound cfg e self :
  (length (filter is_request (PriceMonitor.iteration cfg e self).2)
   <= 2 * length (StockConfig.get_companies cfg "us"))%nat
  /\ (PriceMonitor.previous_close_date self = Some (today e) ->
      (length (filter is_request (PriceMonitor.iteration cfg e self).2)
       <= length (StockConfig.get_companies cfg "us"))%nat).
Proof.
  destruct (decide (PriceMonitor.get_active_markets cfg = [])) as [Hclosed|Hopen].
  { assert (PriceMonitor.iteration cfg e self = (Ok tt, self, [EvSleep 300]))
      as ->.
    { unfold PriceMonitor.iteration, try_except, PriceMonitor.cycle.
      rewrite Hclosed. reflexivity. }
    cbn [snd].
    assert (filter is_request [EvSleep 300] = []) as -> by reflexivity.
    cbn. split; intros; lia. }
  assert (forall err s t,
            PriceMonitor.cycle cfg e self = (Raise err, s, t) ->
            length (filter is_request (PriceMonitor.iteration cfg e self).2)
            = length (filter is_request t)) as Hturn.
  { intros err s t Hcycle. rewrite (iteration_recovers _ _ _ _ _ _ Hcycle).
    cbn [snd]. rewrite filter_app, length_app.
    assert (filter is_request [EvLogError err; EvSleep 60] = []) as ->
      by reflexivity.
    cbn. lia. }
  pose proof (active_cycle_run cfg e self Hopen) as Hrun.
  destruct (PriceMonitor.ensure_previous_closes cfg e self)
    as [[r1 s1] t1] eqn:Hensure.
  pose proof (ensure_request_bound _ _ _ _ _ _ Hensure) as Hb1.
  assert (PriceMonitor.previous_close_date self = Some (today e) -> t1 = [])
    as Hfresh.
  { intros Hdate. rewrite (ensure_previous_closes_fresh _ _ _ Hdate) in Hensure.
    congruence. }
  destruct r1 as [[]|err1].
  - destruct (PriceMonitor.poll_prices_for_companies e _ s1)
      as [[r2 s2] t2] eqn:Hpoll.
    pose proof (poll_request_bound _ _ _ _ _ _ Hpoll) as Hb2.
    assert (length (filter is_request (PriceMonitor.iteration cfg e self).2)
            = length (filter is_request (t1 ++ t2))) as ->.
    { destruct r2 as [[]|err2]; eapply Hturn; exact Hrun. }
    rewrite filter_app, length_app. split; [lia|].
    intros Hdate. rewrite (Hfresh Hdate). cbn. lia.
  - rewrite (Hturn _ _ _ Hrun). split; [lia|].
    intros Hdate. rewrite (Hfresh Hdate). cbn. lia.
Qed.

(** What one turn of the loop leaves in the trace. *)
Lemma iteration_events cfg e self r self' t :
  PriceMonitor.iteration cfg e self = (r, self', t) ->
  Forall wired_loop_event t.
Proof.
  destruct (decide (PriceMonitor.get_active_markets cfg = [])) as [Hclosed|Hopen].
  - unfold PriceMonitor.iteration, try_except, PriceMonitor.cycle.
    rewrite Hclosed. cbn. intros [= _ _ <-].
    constructor; [left; reflexivity|constructor].
  - destruct (active_cycle_raises cfg e self Hopen)
      as (err & s & t0 & Hcycle & Ht0).
    rewrite (iteration_recovers _ _ _ _ _ _ Hcycle). intros [= _ _ <-].
    apply Forall_app. split.
    + eapply Forall_impl; [exact Ht0|].
      intros [] Hev; try discriminate; exact I.
    + constructor; [exact I|].
      constructor; [right; reflexivity|constructor].
Qed.

(** The loop as [main] wires it never hands over an alert and never waits
    the 180 seconds of normal times: over any course of the outside world,
    every event of its trace is a request, a printed line, a log entry, or a
    sleep of 300 seconds (markets closed) or of 60 seconds (the handler). *)
Theorem monitor_prices_never_alerts cfg world self :
  Forall wired_loop_event (PriceMonitor.monitor_prices cfg world self).2.
Proof.
  destruct (PriceMonitor.monitor_prices cfg world self) as [[r s] t] eqn:Hrun.
  cbn [snd]. revert Hrun. unfold PriceMonitor.monitor_prices.
  apply for_each_trace. intros e s0 r0 s1 t0. apply iteration_events.
Qed.

(** While the provider fails for the first company of the list, on days for
    which the cache is not stamped, every turn of the loop is the same: one
    daily request for that company, the log entry, the sleep of 60 seconds.
    No other company is ever requested, the state never changes, and the
    loop goes on so for as long as the failure lasts.  A body without the
    series key, which is what a rate-limiting provider sends, is such a
    failure, with the exception AttributeError. *)
Theorem persistent_failure_retries_first_company cfg c rest world self err :
  StockConfig.get_companies cfg "us" = c :: rest ->
  PriceMonitor.get_active_markets cfg <> [] ->
  (forall e, e ∈ world ->
     PriceMonitor.previous_close_date self <> Some (today e)
     /\ yesterday_close e (symbol c) = Raise err) ->
  PriceMonitor.monitor_prices cfg world self
  = (Ok tt, self,
     concat (map (fun _ => [EvRequest "TIME_SERIES_DAILY" (symbol c);
                            EvLogError err; EvSleep 60]) world)).
Proof.
  intros Hlist Hopen. unfold PriceMonitor.monitor_prices.
  induction world as [|e world IH]; intros Hworld; [reflexivity|].
  destruct (Hworld e) as [Hstale Hfail]; [left|].
  assert (PriceMonitor.iteration cfg e self
          = (Ok tt, self,
             [EvRequest "TIME_SERIES_DAILY" (symbol c); EvLogError err;
              EvSleep 60])) as Hturn.
  { apply (iteration_recovers cfg e self err self
             [EvRequest "TIME_SERIES_DAILY" (symbol c)]).
    rewrite (active_cycle_run _ _ _ Hopen).
    unfold PriceMonitor.ensure_previous_closes.
    unfold mbind at 1. unfold prog_bind at 1. unfold bind at 1. unfold gets.
    rewrite bool_decide_eq_false_2 by exact Hstale.
    unfold mbind at 1. unfold prog_bind at 1. unfold bind at 1.
    rewrite Hlist.
    rewrite (for_each_raise_at _ [] c rest self self [] err self
               [EvRequest "TIME_SERIES_DAILY" (symbol c)]);
      [reflexivity|reflexivity|].
    rewrite refresh_company_run. fold (yesterday_close e (symbol c)).
    rewrite Hfail. reflexivity. }
  cbn [for_each map concat]. unfold bind. rewrite Hturn.
  rewrite IH; [reflexivity|].
  intros e' He'. apply Hworld. right. exact He'.
Qed.

(** ** Strings *)

Lemma list_ascii_of_string_app (s t : string) :
  String.list_ascii_of_string (s +:+ t)
  = String.list_ascii_of_string s ++ String.list_ascii_of_string t.
Proof.
  induction s as [|a s IH]; [reflexivity|].
  change (a :: String.list_ascii_of_string (s +:+ t)
          = a :: (String.list_ascii_of_string s
                  ++ String.list_ascii_of_string t)).
  rewrite IH. reflexivity.
Qed.

Lemma string_length_app (s t : string) :
  String.length (s +:+ t) = (String.length s + String.length t)%nat.
Proof.
  induction s as [|a s IH]; [reflexivity|].
  change (S (String.length (s +:+ t))
          = S (String.length s + String.length t)).
  rewrite IH. reflexivity.
Qed.

Lemma string_app_inv_tail (s1 s2 t : string) :
  s1 +:+ t = s2 +:+ t -> s1 = s2.
Proof.
  intros Heq. apply (f_equal String.list_ascii_of_string) in Heq.
  rewrite !list_ascii_of_string_app in Heq. apply app_inv_tail in Heq.
  apply (f_equal String.string_of_list_ascii) in Heq.
  rewrite !String.string_of_list_ascii_of_string in Heq. exact Heq.
Qed.

(** For one alert type, different symbols have different cooldown keys. *)
Lemma cooldown_key_inj sym sym' alert_type :
  StockMonitor.cooldown_key sym alert_type
  = StockMonitor.cooldown_key sym' alert_type -> sym = sym'.
Proof. unfold StockMonitor.cooldown_key. apply string_app_inv_tail. Qed.

(** ** More on the cooldown *)

(** Within a day, the seconds of a difference exceed [c] exactly from
    [c + 1] whole seconds on. *)
Lemma seconds_exceed (c delta : Z) :
  0 <= delta < 86400000000 ->
  c < StockMonitor.timedelta_seconds delta <-> (c + 1) * 1000000 <= delta.
Proof.
  intros Hrange. unfold StockMonitor.timedelta_seconds.
  rewrite (Z.mod_small _ 86400000000) by exact Hrange.
  split; intros H.
  - destruct (Z_le_gt_dec ((c + 1) * 1000000) delta) as [|Hlt]; [assumption|].
    assert (delta / 1000000 <= c); [|lia].
    apply Z.lt_succ_r, Z.div_lt_upper_bound; lia.
  - apply Z.lt_le_trans with (m := c + 1); [lia|].
    apply Z.div_le_lower_bound; lia.
Qed.

(** Recording an alert and asking again.  After [set_alert_cooldown] the
    check for the same symbol and alert type answers no for as long as the
    clock has not advanced by a full second beyond the cooldown of that type
    (900 s for price alerts, 1800 s for any other type); and the recording
    changes nothing for another symbol: the check for it answers as it
    would have without the recording. *)
Theorem recorded_alert_is_suppressed clock sym alert_type self :
  let recorded :=
    StockMonitor.set_cooldown (StockMonitor.cooldown_key sym alert_type)
      (clock (StockMonitor.clock_reads self)) (StockMonitor.tick self) in
  StockMonitor.set_alert_cooldown clock sym alert_type self
  = (Ok tt, recorded, [])
  /\ (0 <= clock (S (StockMonitor.clock_reads self))
           - clock (StockMonitor.clock_reads self)
         < (StockMonitor.cooldown_of alert_type + 1) * 1000000 ->
      (StockMonitor.should_send_alert clock sym alert_type recorded).1.1
      = Ok false)
  /\ (forall sym', sym' <> sym ->
        (StockMonitor.should_send_alert clock sym' alert_type recorded).1.1
        = (StockMonitor.should_send_alert clock sym' alert_type
             (StockMonitor.tick self)).1.1).
Proof.
  intros recorded. split; [reflexivity|]. split.
  - intros Hrange. rewrite should_send_alert_run. subst recorded. cbn.
    rewrite lookup_insert_eq. cbn. f_equal. apply bool_decide_eq_false_2.
    assert (StockMonitor.cooldown_of alert_type = 900
            \/ StockMonitor.cooldown_of alert_type = 1800) as Hcool.
    { unfold StockMonitor.cooldown_of. case_bool_decide; auto. }
    rewrite seconds_exceed by lia. lia.
  - intros sym' Hne. rewrite !should_send_alert_run. subst recorded. cbn.
    rewrite lookup_insert_ne.
    + destruct (StockMonitor.alert_cooldown self !! _); reflexivity.
    + intros Heq. apply Hne. symmetry. eapply cooldown_key_inj, Heq.
Qed.

(** The check repeats itself every day: whole days added to the clock's
    reading do not change its answer, so that an alert recorded several days
    ago is treated like one recorded today at the same time of day. *)
Theorem should_send_alert_has_period_one_day clock sym alert_type self
    (days : Z) :
  (StockMonitor.should_send_alert
     (fun n => clock n + days * 86400000000) sym alert_type self).1.1
  = (StockMonitor.should_send_alert clock sym alert_type self).1.1.
Proof.
  rewrite !should_send_alert_run.
  destruct (StockMonitor.alert_cooldown self !! _) as [last|]; [|reflexivity].
  cbn. unfold StockMonitor.timedelta_seconds.
  replace (clock (StockMonitor.clock_reads self) + days * 86400000000 - last)
    with (clock (StockMonitor.clock_reads self) - last + days * 86400000000)
    by lia.
  rewrite Z.mod_add by lia. reflexivity.
Qed.

(** ** More on [process_price_updates] *)

(** What one turn of the loop does to the cooldowns: it writes at the key of
    its own symbol only and removes nothing; when it raises, the state is
    the one it started from; when it returns, it has either kept the alerts
    and the cooldowns, or appended one alert for its symbol and recorded the
    cooldown of that symbol. *)
Lemma process_symbol_cooldowns cfg clock sym data alerts self r self' t :
  StockMonitor.process_symbol cfg clock (sym, data) alerts self = (r, self', t) ->
  (forall k, k <> StockMonitor.cooldown_key sym "price" ->
     StockMonitor.alert_cooldown self' !! k
     = StockMonitor.alert_cooldown self !! k)
  /\ (forall k, is_Some (StockMonitor.alert_cooldown self !! k) ->
        is_Some (StockMonitor.alert_cooldown self' !! k))
  /\ (forall err, r = Raise err -> self' = self)
  /\ (forall alerts', r = Ok alerts' ->
        (alerts' = alerts
         /\ StockMonitor.alert_cooldown self' = StockMonitor.alert_cooldown self)
        \/ (exists a, alerts' = alerts ++ [a] /\ alert_symbol a = sym
                      /\ is_Some (StockMonitor.alert_cooldown self'
                                  !! StockMonitor.cooldown_key sym "price"))).
Proof.
  assert (forall s : StockMonitor.state,
            (forall k, k <> StockMonitor.cooldown_key sym "price" ->
               StockMonitor.alert_cooldown s !! k
               = StockMonitor.alert_cooldown s !! k)
            /\ (forall k, is_Some (StockMonitor.alert_cooldown s !! k) ->
                  is_Some (StockMonitor.alert_cooldown s !! k))) as Hsame
    by (intros s; split; auto).
  unfold StockMonitor.process_symbol.
  destruct (StockMonitor.get_company_config cfg sym) as [c|].
  2: { intros [= <- <- <-]. destruct (Hsame self) as [H1 H2].
       repeat split; auto; try discriminate. intros ? [= <-]. auto. }
  destruct (enabled (price_alerts c)); cbn [negb].
  2: { intros [= <- <- <-]. destruct (Hsame self) as [H1 H2].
       repeat split; auto; try discriminate. intros ? [= <-]. auto. }
  unfold mbind at 1. unfold prog_bind, bind, gets.
  destruct (StockMonitor.cache self !! sym) as [cached|].
  2: { cbn. intros [= <- <- <-]. cbn.
       repeat split; auto; try discriminate. intros ? [= <-]. auto. }
  unfold StockMonitor.change_percent, StockMonitor.first_threshold.
  destruct (PrimFloat.eqb (previous_close cached) 0); cbn [lift].
  { intros [= <- <- <-]. repeat split; auto; discriminate. }
  destruct (conditions (price_alerts c)) as [|cond rest]; cbn [lift].
  { intros [= <- <- <-]. repeat split; auto; discriminate. }
  unfold mbind, prog_bind, bind, ret, modify. cbn [app].
  destruct (PrimFloat.leb (threshold_percent cond) _).
  2: { cbn. intros [= <- <- <-]. cbn.
       repeat split; auto; try discriminate. intros ? [= <-]. auto. }
  rewrite should_send_alert_run.
  destruct (StockMonitor.alert_cooldown self !! _) as [last|] eqn:Hlast;
    [destruct (bool_decide _)|]; cbn; intros [= <- <- <-]; cbn.
  - split; [intros k Hk; apply lookup_insert_ne; congruence|].
    split; [intros k Hk; destruct (decide
              (StockMonitor.cooldown_key sym "price" = k)) as [<-|Hne];
            [rewrite lookup_insert_eq; eauto
            |rewrite lookup_insert_ne by exact Hne; exact Hk]|].
    split; [discriminate|]. intros ? [= <-]. right.
    eexists. split; [reflexivity|]. split; [reflexivity|].
    rewrite lookup_insert_eq. eauto.
  - repeat split; auto; try discriminate. intros ? [= <-]. auto.
  - split; [intros k Hk; apply lookup_insert_ne; congruence|].
    split; [intros k Hk; destruct (decide
              (StockMonitor.cooldown_key sym "price" = k)) as [<-|Hne];
            [rewrite lookup_insert_eq; eauto
            |rewrite lookup_insert_ne by exact Hne; exact Hk]|].
    split; [discriminate|]. intros ? [= <-]. right.
    eexists. split; [reflexivity|]. split; [reflexivity|].
    rewrite lookup_insert_eq. eauto.
Qed.

(** What one turn that returns leaves in the cache for its symbol. *)
Lemma process_symbol_cache_entry cfg clock sym data alerts self alerts' self' t :
  StockMonitor.process_symbol cfg clock (sym, data) alerts self
  = (Ok alerts', self', t) ->
  StockMonitor.cache self' !! sym
  = if monitored cfg sym then Some data else StockMonitor.cache self !! sym.
Proof.
  unfold StockMonitor.process_symbol, monitored.
  destruct (StockMonitor.get_company_config cfg sym) as [c|];
    [|intros [= _ <- _]; reflexivity].
  destruct (enabled (price_alerts c)); cbn [negb];
    [|intros [= _ <- _]; reflexivity].
  unfold mbind at 1. unfold prog_bind, bind, gets.
  destruct (StockMonitor.cache self !! sym) as [cached|].
  2: { cbn. intros [= _ <- _]. cbn. apply lookup_insert_eq. }
  unfold StockMonitor.change_percent, StockMonitor.first_threshold.
  destruct (PrimFloat.eqb (previous_close cached) 0); cbn [lift];
    [discriminate|].
  destruct (conditions (price_alerts c)) as [|cond rest]; cbn [lift];
    [discriminate|].
  unfold mbind, prog_bind, bind, ret, modify. cbn [app].
  destruct (PrimFloat.leb (threshold_percent cond) _).
  - rewrite should_send_alert_run.
    destruct (StockMonitor.alert_cooldown self !! _) as [last|];
      [destruct (bool_decide _)|]; cbn; intros [= _ <- _]; cbn;
      apply lookup_insert_eq.
  - cbn. intros [= _ <- _]. cbn. apply lookup_insert_eq.
Qed.

(** Within the cooldown no move produces an alert.  Take a monitored symbol
    whose company has at least one condition, with a cached entry whose
    previous close is not zero (so that the turn does not raise), and a
    price alert recorded at most 901 s ago, exclusive, on a clock that was
    not set back.  Whatever the new price, the turn appends nothing; it
    still replaces the cached entry by the new observation, and it leaves
    the recorded time as it is, so that the cooldown is not prolonged. *)
Theorem alert_within_cooldown_is_suppressed cfg clock sym data cached c cond
    rest alerts self last_alert :
  StockMonitor.get_company_config cfg sym = Some c ->
  enabled (price_alerts c) = true ->
  conditions (price_alerts c) = cond :: rest ->
  StockMonitor.cache self !! sym = Some cached ->
  PrimFloat.eqb (previous_close cached) 0 = false ->
  StockMonitor.alert_cooldown self !! StockMonitor.cooldown_key sym "price"
  = Some last_alert ->
  0 <= clock (StockMonitor.clock_reads self) - last_alert < 901000000 ->
  exists self',
    StockMonitor.process_symbol cfg clock (sym, data) alerts self
    = (Ok alerts, self', [])
    /\ StockMonitor.cache self' !! sym = Some data
    /\ StockMonitor.alert_cooldown self' = StockMonitor.alert_cooldown self.
Proof.
  intros Hcfg Hen Hconds Hcached Hnonzero Hlast Hrange.
  assert (StockMonitor.should_send_alert clock sym "price" self
          = (Ok false, StockMonitor.tick self, [])) as Hsend.
  { rewrite should_send_alert_run, Hlast. do 2 f_equal. f_equal.
    apply bool_decide_eq_false_2.
    rewrite seconds_exceed by lia.
    unfold StockMonitor.cooldown_of.
    rewrite bool_decide_eq_true_2 by reflexivity. lia. }
  destruct (process_symbol_cached cfg clock sym data cached c cond rest alerts
              self false _ Hcfg Hen Hconds Hcached Hnonzero Hsend)
    as (self' & Hrun & Hcache).
  cbv zeta in Hrun. rewrite andb_false_r in Hrun.
  exists self'. split; [exact Hrun|]. split.
  - rewrite Hcache. apply lookup_insert_eq.
  - destruct (process_symbol_cooldowns _ _ _ _ _ _ _ _ _ Hrun)
      as (_ & _ & _ & Hok).
    destruct (Hok _ eq_refl) as [[_ Hsame]|(a & Habs & _)]; [exact Hsame|].
    apply (f_equal length) in Habs. rewrite length_app in Habs.
    cbn in Habs. lia.
Qed.

(** The loop of [process_price_updates], when it completes, has made the
    cache hold the observation of every monitored symbol of [stock_data]
    and kept its entry for every other symbol. *)
Lemma process_loop_cache cfg clock stock_data :
  NoDup stock_data.*1 ->
  forall alerts self alerts' self' t,
    for_fold stock_data alerts (StockMonitor.process_symbol cfg clock) self
    = (Ok alerts', self', t) ->
    forall sym data, (sym, data) ∈ stock_data ->
      StockMonitor.cache self' !! sym
      = if monitored cfg sym then Some data
        else StockMonitor.cache self !! sym.
Proof.
  induction stock_data as [|[sym0 data0] stock_data IH];
    intros Hnodup alerts self alerts' self' t Hrun sym data Hin;
    [inversion Hin|].
  cbn in Hnodup. apply NoDup_cons in Hnodup as [Hfresh Hnodup].
  cbn [for_fold] in Hrun. unfold bind in Hrun.
  destruct (StockMonitor.process_symbol cfg clock (sym0, data0) alerts self)
    as [[[alerts1|err] s1] t1] eqn:Hstep; [|discriminate].
  destruct (for_fold stock_data alerts1 _ s1) as [[r2 s2] t2] eqn:Hrest.
  injection Hrun as -> <- _.
  destruct (process_symbol_step _ _ _ _ _ _ _ _ _ Hstep) as (_ & Hframe1 & _).
  destruct (process_loop _ _ _ _ _ _ _ _ Hrest) as (_ & Hframe2 & _).
  apply elem_of_cons in Hin as [[= -> ->]|Hin].
  - rewrite (Hframe2 _ Hfresh).
    apply (process_symbol_cache_entry _ _ _ _ _ _ _ _ _ Hstep).
  - rewrite (IH Hnodup _ _ _ _ _ Hrest _ _ Hin).
    destruct (monitored cfg sym); [reflexivity|].
    apply Hframe1. intros ->. apply Hfresh.
    apply (list_elem_of_fmap_2 fst) in Hin. exact Hin.
Qed.

(** After a call of [process_price_updates] that returns, the cache holds
    the latest observation of every monitored symbol of [stock_data], the
    one the next call compares with; the entries of symbols that are
    unknown to the configuration or have price alerts disabled, and of
    symbols absent from [stock_data], are what they were. *)
Theorem cache_holds_latest_observation cfg clock stock_data market self self' t :
  NoDup stock_data.*1 ->
  StockMonitor.process_price_updates cfg clock stock_data market self
  = (Ok tt, self', t) ->
  (forall sym data, (sym, data) ∈ stock_data ->
     StockMonitor.cache self' !! sym
     = if monitored cfg sym then Some data
       else StockMonitor.cache self !! sym)
  /\ (forall sym, sym ∉ stock_data.*1 ->
        StockMonitor.cache self' !! sym = StockMonitor.cache self !! sym).
Proof.
  intros Hnodup.
  unfold StockMonitor.process_price_updates, mbind, prog_bind, bind.
  destruct (for_fold stock_data [] _ self) as [[[built|err] s1] t1] eqn:Hloop;
    [|discriminate].
  intros Hrun.
  assert (s1 = self') as <-.
  { destruct built as [|a built].
    - cbn in Hrun. injection Hrun as <- _. reflexivity.
    - rewrite send_alerts_batch_run in Hrun. discriminate. }
  split.
  - intros sym data Hin.
    exact (process_loop_cache _ _ _ Hnodup _ _ _ _ _ Hloop _ _ Hin).
  - destruct (process_loop _ _ _ _ _ _ _ _ Hloop) as (_ & Hframe & _).
    exact Hframe.
Qed.

(** A fold that raises at [x], after the items before it went through,
    raises there. *)
Lemma for_fold_raise_at {S A B} (body : A -> B -> prog S B) pre x post :
  forall acc s acc1 s1 t1 e s2 t2,
    for_fold pre acc body s = (Ok acc1, s1, t1) ->
    body x acc1 s1 = (Raise e, s2, t2) ->
    for_fold (pre ++ x :: post) acc body s = (Raise e, s2, t1 ++ t2).
Proof.
  induction pre as [|y pre IH]; intros acc s acc1 s1 t1 e s2 t2 Hpre Hx.
  - cbn in Hpre. injection Hpre as <- <- <-. cbn [app for_fold].
    unfold bind. rewrite Hx. reflexivity.
  - cbn [app for_fold] in *. unfold bind in *.
    destruct (body y acc s) as [[[accy|ey] sy] ty]; [|discriminate].
    destruct (for_fold pre accy body sy) as [[[accp|ep] sp] tp] eqn:Hrest;
      [|discriminate].
    injection Hpre as <- <- <-.
    rewrite (IH _ _ _ _ _ _ _ _ Hrest Hx). rewrite app_assoc. reflexivity.
Qed.

(** Every alert the loop has appended has its cooldown recorded in the
    state the loop has reached. *)
Lemma process_loop_cooldowns cfg clock stock_data :
  forall alerts self alerts' self' t,
    for_fold stock_data alerts (StockMonitor.process_symbol cfg clock) self
    = (Ok alerts', self', t) ->
    (forall k, is_Some (StockMonitor.alert_cooldown self !! k) ->
       is_Some (StockMonitor.alert_cooldown self' !! k))
    /\ exists new,
         alerts' = alerts ++ new
         /\ Forall (fun a =>
              is_Some (StockMonitor.alert_cooldown self'
                       !! StockMonitor.cooldown_key (alert_symbol a) "price"))
              new.
Proof.
  induction stock_data as [|[sym data] stock_data IH];
    intros alerts self alerts' self' t.
  - cbn. intros [= <- <- _]. split; [auto|].
    exists []. rewrite app_nil_r. split; constructor.
  - cbn [for_fold]. unfold bind.
    destruct (StockMonitor.process_symbol cfg clock (sym, data) alerts self)
      as [[[alerts1|err] s1] t1] eqn:Hstep; [|discriminate].
    destruct (for_fold stock_data alerts1 _ s1) as [[r2 s2] t2] eqn:Hrest.
    intros [= -> <- _].
    destruct (process_symbol_cooldowns _ _ _ _ _ _ _ _ _ Hstep)
      as (_ & Hmono1 & _ & Hok1).
    destruct (IH _ _ _ _ _ Hrest) as (Hmono2 & new2 & -> & Hnew2).
    split; [auto|].
    destruct (Hok1 _ eq_refl) as [[-> _]|(a & -> & Hsym & Hrec)].
    + exists new2. split; [reflexivity|exact Hnew2].
    + exists (a :: new2). split; [rewrite <- app_assoc; reflexivity|].
      constructor; [|exact Hnew2]. rewrite Hsym. apply Hmono2, Hrec.
Qed.

(** Alerts that are collected and never sent.  When the turn of some symbol
    raises (a cached previous close of zero, an empty list of conditions),
    the call raises with it: the alerts collected for the symbols before it
    are not handed over, no event is left, and yet the state is the one
    those turns have reached, in which the cooldown of each of these alerts
    is recorded, so that the next call will not raise them again. *)
Theorem raised_call_loses_collected_alerts cfg clock pre item post market self
    alerts s1 t1 err s2 t2 :
  for_fold pre [] (StockMonitor.process_symbol cfg clock) self
  = (Ok alerts, s1, t1) ->
  StockMonitor.process_symbol cfg clock item alerts s1 = (Raise err, s2, t2) ->
  StockMonitor.process_price_updates cfg clock (pre ++ item :: post) market self
  = (Raise err, s1, [])
  /\ Forall (fun a =>
       is_Some (StockMonitor.alert_cooldown s1
                !! StockMonitor.cooldown_key (alert_symbol a) "price"))
       alerts.
Proof.
  intros Hpre Hitem.
  destruct (process_loop _ _ _ _ _ _ _ _ Hpre) as (-> & _).
  destruct item as [sym data].
  destruct (process_symbol_step _ _ _ _ _ _ _ _ _ Hitem) as (-> & _).
  destruct (process_symbol_cooldowns _ _ _ _ _ _ _ _ _ Hitem)
    as (_ & _ & Hraise & _).
  rewrite (Hraise _ eq_refl) in Hitem. split.
  - unfold StockMonitor.process_price_updates, mbind, prog_bind.
    unfold bind at 1.
    rewrite (for_fold_raise_at _ _ _ post _ _ _ _ _ _ _ _ Hpre Hitem).
    reflexivity.
  - destruct (process_loop_cooldowns _ _ _ _ _ _ _ _ Hpre)
      as (_ & new & Heq & Hnew).
    cbn in Heq. subst new. exact Hnew.
Qed.

(** ** The batches of [fetch_batch_prices] *)

(** With fuel for every index below [stop], the batches taken at the indices
    of the range make up the list from the first index on. *)
Lemma batches_from_concat (symbols : list string) (step : nat) :
  (0 < step)%nat ->
  forall fuel start,
    (length symbols <= start + fuel)%nat ->
    concat (map (fun i => take step (drop i symbols))
              (BatchFetch.range_from fuel start (length symbols) step))
    = drop start symbols.
Proof.
  intros Hstep. induction fuel as [|fuel IH]; intros start Hfuel.
  - cbn. rewrite drop_ge by lia. reflexivity.
  - cbn [BatchFetch.range_from].
    destruct (Nat.ltb_spec start (length symbols)) as [Hlt|Hge].
    + cbn [map concat]. rewrite IH by lia.
      rewrite <- drop_drop. apply take_drop.
    + cbn. rewrite drop_ge by lia. reflexivity.
Qed.

Lemma range_from_length (stop step : nat) :
  (0 < step)%nat ->
  forall fuel start,
    (stop <= start + fuel)%nat ->
    length (BatchFetch.range_from fuel start stop step)
    = ((stop - start + (step - 1)) / step)%nat.
Proof.
  intros Hstep. induction fuel as [|fuel IH]; intros start Hfuel.
  - cbn. replace (stop - start)%nat with 0%nat by lia.
    symmetry. apply Nat.div_small. lia.
  - cbn [BatchFetch.range_from].
    destruct (Nat.ltb_spec start stop) as [Hlt|Hge].
    + cbn [length]. rewrite IH by lia.
      destruct (Nat.le_gt_cases (start + step) stop) as [Hfull|Hlast].
      * replace (stop - start + (step - 1))%nat
          with (1 * step + (stop - (start + step) + (step - 1)))%nat by lia.
        rewrite Nat.div_add_l by lia. lia.
      * replace (stop - (start + step))%nat with 0%nat by lia.
        rewrite (Nat.div_small (0 + (step - 1))) by lia.
        replace (stop - start + (step - 1))%nat
          with (1 * step + (stop - start - 1))%nat by lia.
        rewrite Nat.div_add_l by lia.
        rewrite (Nat.div_small (stop - start - 1)) by lia. reflexivity.
    + cbn. replace (stop - start)%nat with 0%nat by lia.
      symmetry. apply Nat.div_small. lia.
Qed.

Lemma range_from_below (stop step : nat) :
  forall fuel start i,
    i ∈ BatchFetch.range_from fuel start stop step -> (i < stop)%nat.
Proof.
  induction fuel as [|fuel IH]; intros start i;
    cbn [BatchFetch.range_from]; [inversion 1|].
  destruct (Nat.ltb_spec start stop) as [Hlt|Hge]; [|inversion 1].
  intros Hi. apply elem_of_cons in Hi as [->|Hi]; [exact Hlt|eauto].
Qed.

(** The batches of [fetch_batch_prices] partition the symbols: put end to
    end they are the list of symbols, each holds between 1 and 100 symbols,
    and there are as many as 100 goes into the number of symbols, rounded
    up; none for an empty list. *)
Theorem batches_partition_the_symbols (symbols : list string) :
  concat (BatchFetch.batches symbols) = symbols
  /\ Forall (fun batch => (1 <= length batch <= 100)%nat)
       (BatchFetch.batches symbols)
  /\ length (BatchFetch.batches symbols)
     = ((length symbols + 99) / 100)%nat.
Proof.
  unfold BatchFetch.batches, BatchFetch.range, BatchFetch.batch_at,
    BatchFetch.batch_size.
  split; [|split].
  - rewrite batches_from_concat by lia. reflexivity.
  - apply Forall_forall. intros batch Hbatch.
    apply list_elem_of_fmap in Hbatch as (i & -> & Hi).
    apply range_from_below in Hi.
    rewrite length_take, length_drop. lia.
  - rewrite length_map, range_from_length by lia.
    rewrite Nat.sub_0_r. reflexivity.
Qed.

(** The loop of [fetch_batch_prices] over indices whose GETs all succeed:
    one request per index, in order. *)
Lemma fetch_loop_requests {S} (get : string -> result (gmap string quote))
    (symbols : list string) (indices : list nat) :
  (forall i, i ∈ indices ->
     exists data,
       get (BatchFetch.batch_url
              (BatchFetch.join "," (BatchFetch.batch_at symbols i)))
       = Ok data) ->
  forall (results : gmap string quote) (s : S),
  exists results',
    for_fold indices results (BatchFetch.fetch_batch get symbols) s
    = (Ok results', s,
       map (fun i => EvRequest "batch"
                       (BatchFetch.join "," (BatchFetch.batch_at symbols i)))
         indices).
Proof.
  induction indices as [|i indices IH]; intros Hok results s.
  - exists results. reflexivity.
  - destruct (Hok i) as [data Hdata]; [left|].
    destruct (IH (fun j Hj => Hok j (list_elem_of_further _ _ _ Hj))
                (data ∪ results) s) as (results' & Hrest).
    assert (BatchFetch.fetch_batch get symbols i results s
            = (Ok (data ∪ results), s,
               [EvRequest "batch"
                  (BatchFetch.join "," (BatchFetch.batch_at symbols i))]))
      as Hstep.
    { unfold BatchFetch.fetch_batch, mbind, prog_bind, bind, emit.
      rewrite Hdata. reflexivity. }
    exists results'. cbn [for_fold map]. unfold bind at 1.
    rewrite Hstep, Hrest. reflexivity.
Qed.

(** When every GET succeeds, [fetch_batch_prices] makes exactly one request
    per batch, in order, each carrying the symbols of its batch joined by
    commas, and touches nothing else; no request at all for an empty list of
    symbols. *)
Theorem fetch_batch_prices_requests {S}
    (get : string -> result (gmap string quote)) symbols market (s : S) :
  (forall batch, batch ∈ BatchFetch.batches symbols ->
     exists data,
       get (BatchFetch.batch_url (BatchFetch.join "," batch)) = Ok data) ->
  exists results,
    BatchFetch.fetch_batch_prices get symbols market s
    = (Ok results, s,
       map (fun batch => EvRequest "batch" (BatchFetch.join "," batch))
         (BatchFetch.batches symbols)).
Proof.
  intros Hok. unfold BatchFetch.fetch_batch_prices, BatchFetch.batches.
  rewrite map_map.
  apply fetch_loop_requests. intros i Hi. apply Hok.
  unfold BatchFetch.batches. apply list_elem_of_fmap. eauto.
Qed.

(** ** The lookups of [config.py] *)

Lemma find_app_first {A} (f : A -> bool) (l1 l2 : list A) :
  List.find f (l1 ++ l2)
  = match List.find f l1 with
    | Some x => Some x
    | None => List.find f l2
    end.
Proof.
  induction l1 as [|x l1 IH]; [reflexivity|].
  cbn. destruct (f x); [reflexivity|exact IH].
Qed.

Lemma find_with_market sym market_name (l : list company) :
  List.find (fun c => bool_decide (symbol c = sym))
    (map (StockConfig.with_market market_name) l)
  = StockConfig.with_market market_name
      <$> List.find (fun c => bool_decide (symbol c = sym)) l.
Proof.
  induction l as [|c l IH]; [reflexivity|].
  cbn. destruct (bool_decide (symbol c = sym)); [reflexivity|exact IH].
Qed.

(** [get_company_by_symbol] is a search through [get_companies()]: it
    returns the first company with the symbol in the list of all companies,
    annotated with its market as that list has it.  So it finds a company
    exactly when some market lists the symbol, and [get_market_for_company]
    answers for exactly the same symbols, with the [markets] entry of the
    market that the found company carries. *)
Theorem lookups_search_all_companies cfg sym :
  StockConfigLookup.get_company_by_symbol cfg sym
  = List.find (fun c => bool_decide (symbol c = sym))
      (StockConfig.get_companies cfg "")
  /\ (is_Some (StockConfigLookup.get_market_for_company cfg sym)
      <-> is_Some (StockConfigLookup.get_company_by_symbol cfg sym))
  /\ (forall c, StockConfigLookup.get_company_by_symbol cfg sym = Some c ->
        symbol c = sym
        /\ exists market_name,
             market c = Some market_name
             /\ StockConfigLookup.get_market_for_company cfg sym
                = Some (StockConfig.dict_get market_name
                          (map (fun kv => (kv.1, Some kv.2))
                             (StockConfig.markets cfg)) None)).
Proof.
  unfold StockConfigLookup.get_company_by_symbol,
    StockConfigLookup.get_market_for_company, StockConfig.get_companies.
  rewrite bool_decide_eq_true_2 by reflexivity.
  split; [|split].
  - induction (StockConfig.companies cfg) as [|[market_name l] d IH];
      [reflexivity|].
    cbn [map concat StockConfigLookup.first_listing].
    rewrite find_app_first, find_with_market.
    destruct (List.find _ l) as [c|]; [reflexivity|exact IH].
  - destruct (StockConfigLookup.first_listing sym (StockConfig.companies cfg));
      cbn; split; intros [? [=]]; eauto.
  - intros c.
    induction (StockConfig.companies cfg) as [|[market_name l] d IH];
      [discriminate|].
    cbn [StockConfigLookup.first_listing].
    destruct (List.find _ l) as [c0|] eqn:Hfind; [|exact IH].
    cbn. intros [= <-]. apply find_some in Hfind as [_ Hsym].
    apply bool_decide_eq_true in Hsym. split; [exact Hsym|].
    exists market_name. split; reflexivity.
Qed.

(** The companies [get_companies(market)] returns for a market are among
    the companies of [get_companies()], each annotated with that market;
    and for a market that the configuration does not have the list is
    empty. *)
Theorem market_companies_are_among_all cfg market_name :
  market_name <> "" ->
  (forall c, c ∈ StockConfig.get_companies cfg market_name ->
     StockConfig.with_market market_name c ∈ StockConfig.get_companies cfg "")
  /\ (market_name ∉ (StockConfig.companies cfg).*1 ->
      StockConfig.get_companies cfg market_name = []).
Proof.
  intros Hname. unfold StockConfig.get_companies.
  rewrite bool_decide_eq_false_2 by exact Hname.
  rewrite bool_decide_eq_true_2 by reflexivity.
  split.
  - induction (StockConfig.companies cfg) as [|[k l] d IH]; intros c;
      cbn [StockConfig.dict_get map concat]; [inversion 1|].
    case_bool_decide as Hk.
    + subst k. intros Hc. apply elem_of_app. left.
      apply list_elem_of_fmap. eauto.
    + intros Hc. apply elem_of_app. right. apply IH, Hc.
  - induction (StockConfig.companies cfg) as [|[k l] d IH];
      cbn [StockConfig.dict_get fmap list_fmap]; [reflexivity|].
    intros Hnot. cbn in Hnot. apply not_elem_of_cons in Hnot as [Hne Hnot].
    rewrite bool_decide_eq_false_2 by congruence. apply IH, Hnot.
Qed.

(** ** The scheduling methods of [StockMonitor] *)

Lemma all_markets_are_active markets now :
  Forall (fun m => exists sessions regular,
            StockMonitorSchedule.market_hours m.2 = Some sessions
            /\ sessions !! "regular" = Some regular) markets ->
  StockMonitorSchedule.get_active_markets markets now = Some markets.*1.
Proof.
  induction 1 as [|[market_name mc] markets (sessions & regular & Hs & Hr) _ IH];
    [reflexivity|].
  cbn in Hs. cbn [StockMonitorSchedule.get_active_markets].
  unfold StockMonitorSchedule.is_market_open.
  rewrite Hs. cbn. rewrite Hr. cbn. rewrite IH. reflexivity.
Qed.

Lemma active_markets_need_hours markets now active :
  StockMonitorSchedule.get_active_markets markets now = Some active ->
  Forall (fun m => exists sessions regular,
            StockMonitorSchedule.market_hours m.2 = Some sessions
            /\ sessions !! "regular" = Some regular) markets.
Proof.
  revert active. induction markets as [|[market_name mc] markets IH];
    intros active; [constructor|].
  cbn [StockMonitorSchedule.get_active_markets].
  unfold StockMonitorSchedule.is_market_open.
  destruct (StockMonitorSchedule.market_hours mc) as [sessions|] eqn:Hs;
    [|discriminate].
  cbn. destruct (sessions !! "regular") as [regular|] eqn:Hr; [|discriminate].
  cbn. destruct (StockMonitorSchedule.get_active_markets markets now)
    as [rest|] eqn:Hrest; [|discriminate].
  intros _. constructor; [cbn; eauto|]. eapply IH. reflexivity.
Qed.

(** The scheduler of [StockMonitor] does not look at the time.  Whenever
    [calculate_wait_time] returns, every configured market counts as open,
    at any time; the wait is 300 seconds when no market is configured and
    180 seconds otherwise, never the 60 seconds of high volatility.  It
    returns exactly when every market has regular hours configured; else the
    lookup of the hours raises. *)
Theorem wait_time_ignores_the_clock markets now :
  (forall wait,
      StockMonitorSchedule.calculate_wait_time markets now = Some wait ->
      StockMonitorSchedule.get_active_markets markets now = Some markets.*1
      /\ wait = (if bool_decide (markets = []) then 300 else 180)
      /\ forall now',
           StockMonitorSchedule.calculate_wait_time markets now' = Some wait)
  /\ (is_Some (StockMonitorSchedule.calculate_wait_time markets now)
      <-> Forall (fun m => exists sessions regular,
                    StockMonitorSchedule.market_hours m.2 = Some sessions
                    /\ sessions !! "regular" = Some regular) markets).
Proof.
  assert (forall now0,
            Forall (fun m => exists sessions regular,
                      StockMonitorSchedule.market_hours m.2 = Some sessions
                      /\ sessions !! "regular" = Some regular) markets ->
            StockMonitorSchedule.calculate_wait_time markets now0
            = Some (if bool_decide (markets = []) then 300 else 180)) as Hall.
  { intros now0 Hhours. unfold StockMonitorSchedule.calculate_wait_time.
    rewrite (all_markets_are_active _ _ Hhours). cbn.
    destruct markets as [|[market_name mc] markets]; reflexivity. }
  assert (forall wait,
            StockMonitorSchedule.calculate_wait_time markets now = Some wait ->
            Forall (fun m => exists sessions regular,
                      StockMonitorSchedule.market_hours m.2 = Some sessions
                      /\ sessions !! "regular" = Some regular) markets)
    as Hneed.
  { intros wait. unfold StockMonitorSchedule.calculate_wait_time.
    destruct (StockMonitorSchedule.get_active_markets markets now)
      as [active|] eqn:Hactive; [|discriminate].
    intros _. eapply active_markets_need_hours, Hactive. }
  split.
  - intros wait Hwait. pose proof (Hneed _ Hwait) as Hhours.
    split; [apply all_markets_are_active, Hhours|].
    rewrite (Hall now Hhours) in Hwait. injection Hwait as <-.
    split; [reflexivity|]. intros now'. apply Hall, Hhours.
  - split.
    + intros [wait Hwait]. eapply Hneed, Hwait.
    + intros Hhours. rewrite (Hall now Hhours). eauto.
Qed.

(** ** The date that [get_yesterday] prints *)

Lemma prints_with_sound len fuel :
  forall n, Calendar.prints_with len fuel n = true ->
  forall m, (n <= m < n + N.of_nat fuel)%N ->
    String.length (pretty m) = len.
Proof.
  induction fuel as [|fuel IH]; intros n Hcheck m Hm; [lia|].
  cbn [Calendar.prints_with] in Hcheck.
  apply andb_true_iff in Hcheck as [Hn Hrest].
  destruct (decide (m = n)) as [->|Hne].
  - apply Nat.eqb_eq, Hn.
  - apply (IH _ Hrest). lia.
Qed.

(** The number of digits of the numbers below 10000. *)
Lemma digits_of (n : N) :
  ((n < 10)%N -> String.length (pretty n) = 1%nat)
  /\ ((10 <= n < 100)%N -> String.length (pretty n) = 2%nat)
  /\ ((100 <= n < 1000)%N -> String.length (pretty n) = 3%nat)
  /\ ((1000 <= n < 10000)%N -> String.length (pretty n) = 4%nat).
Proof.
  repeat split; intros Hn.
  - apply (prints_with_sound 1 10 0); [vm_compute; reflexivity|lia].
  - apply (prints_with_sound 2 90 10); [vm_compute; reflexivity|lia].
  - apply (prints_with_sound 3 900 100); [vm_compute; reflexivity|lia].
  - apply (prints_with_sound 4 (90 * 100) 1000); [vm_compute; reflexivity|].
    assert (N.of_nat (90 * 100) = 9000%N) as -> by (vm_compute; reflexivity).
    lia.
Qed.

Lemma zeros_length n : String.length (Calendar.zeros n) = n.
Proof.
  induction n as [|n IH]; [reflexivity|].
  cbn [Calendar.zeros]. rewrite string_length_app, IH. reflexivity.
Qed.

Lemma pad_length width s :
  String.length (Calendar.pad width s)
  = (width - String.length s + String.length s)%nat.
Proof. unfold Calendar.pad. rewrite string_length_app, zeros_length. reflexivity. Qed.

Lemma pad_full width s :
  (width <= String.length s)%nat -> Calendar.pad width s = s.
Proof.
  intros Hfull. unfold Calendar.pad.
  replace (width - String.length s)%nat with 0%nat by lia. reflexivity.
Qed.

Lemma unpadded_length d :
  String.length (Calendar.unpadded d)
  = (String.length (pretty (Calendar.year d))
     + String.length (pretty (Calendar.month d))
     + String.length (pretty (Calendar.day d)) + 2)%nat.
Proof.
  unfold Calendar.unpadded. rewrite !string_length_app. cbn. lia.
Qed.

Lemma isoformat_length d : (10 <= String.length (Calendar.isoformat d))%nat.
Proof.
  unfold Calendar.isoformat. rewrite !string_length_app, !pad_length. cbn. lia.
Qed.

Lemma days_in_month_bounds y m :
  (28 <= Calendar.days_in_month y m <= 31)%N.
Proof.
  unfold Calendar.days_in_month.
  repeat match goal with |- context [if ?b then _ else _] => destruct b end;
    lia.
Qed.

(** The day before a date of Python is a date with a year up to 9999, a
    month up to 12 and a day up to 31. *)
Lemma day_before_bounds today d :
  Calendar.valid today = true ->
  Calendar.day_before today = Some d ->
  (1 <= Calendar.year d <= 9999)%N
  /\ (1 <= Calendar.month d <= 12)%N
  /\ (1 <= Calendar.day d <= 31)%N.
Proof.
  unfold Calendar.valid, Calendar.day_before.
  rewrite !andb_true_iff, !N.leb_le.
  intros [[[[[Hy1 Hy2] Hm1] Hm2] Hd1] Hd2].
  pose proof (days_in_month_bounds (Calendar.year today)
                (Calendar.month today)) as Hdim.
  pose proof (days_in_month_bounds (Calendar.year today)
                (Calendar.month today - 1)) as Hdim'.
  destruct (N.ltb_spec 1 (Calendar.day today)).
  { intros [= <-]. cbn. lia. }
  destruct (N.ltb_spec 1 (Calendar.month today)).
  { intros [= <-]. cbn. lia. }
  destruct (N.ltb_spec 1 (Calendar.year today)); [|discriminate].
  intros [= <-]. cbn. lia.
Qed.

(** A date printed without padding, with a short year, month or day, is
    shorter than every ISO date. *)
Lemma unpadded_is_no_iso_date d d' :
  (Calendar.year d <= 9999)%N ->
  (Calendar.month d <= 12)%N ->
  (Calendar.day d <= 31)%N ->
  (Calendar.year d < 1000)%N \/ (Calendar.month d < 10)%N
  \/ (Calendar.day d < 10)%N ->
  Calendar.unpadded d <> Calendar.isoformat d'.
Proof.
  intros Hy Hm Hd Hshort Heq.
  apply (f_equal String.length) in Heq.
  pose proof (isoformat_length d') as Hiso.
  rewrite unpadded_length in Heq.
  destruct (digits_of (Calendar.year d)) as (Hy1 & Hy2 & Hy3 & Hy4).
  destruct (digits_of (Calendar.month d)) as (Hm1 & Hm2 & _).
  destruct (digits_of (Calendar.day d)) as (Hd1 & Hd2 & _).
  assert (String.length (pretty (Calendar.year d)) <= 4
          /\ ((Calendar.year d < 1000)%N ->
              String.length (pretty (Calendar.year d)) <= 3))%nat as [Hly Hly'].
  { destruct (N.lt_ge_cases (Calendar.year d) 10); [rewrite Hy1; lia|].
    destruct (N.lt_ge_cases (Calendar.year d) 100); [rewrite Hy2; lia|].
    destruct (N.lt_ge_cases (Calendar.year d) 1000); [rewrite Hy3; lia|].
    rewrite Hy4; lia. }
  assert (String.length (pretty (Calendar.month d)) <= 2)%nat as Hlm.
  { destruct (N.lt_ge_cases (Calendar.month d) 10);
      [rewrite Hm1; lia|rewrite Hm2; lia]. }
  assert (String.length (pretty (Calendar.day d)) <= 2)%nat as Hld.
  { destruct (N.lt_ge_cases (Calendar.day d) 10);
      [rewrite Hd1; lia|rewrite Hd2; lia]. }
  destruct Hshort as [Hshort|[Hshort|Hshort]].
  - specialize (Hly' Hshort). lia.
  - rewrite (Hm1 Hshort) in Heq. lia.
  - rewrite (Hd1 Hshort) in Heq. lia.
Qed.

(** What [get_yesterday] returns is the ISO date of yesterday only when
    yesterday's month and day have two digits (and its year four).  For a
    yesterday with a month or a day below 10, which is not zero-padded, the
    string is shorter than every ISO date and so equal to none. *)
Theorem get_yesterday_is_not_zero_padded today d :
  Calendar.valid today = true ->
  Calendar.day_before today = Some d ->
  ((1000 <= Calendar.year d)%N /\ (10 <= Calendar.month d)%N
   /\ (10 <= Calendar.day d)%N ->
   Calendar.get_yesterday today = Some (Calendar.isoformat d))
  /\ ((Calendar.year d < 1000)%N \/ (Calendar.month d < 10)%N
      \/ (Calendar.day d < 10)%N ->
      forall d', Calendar.get_yesterday today
                 <> Some (Calendar.isoformat d')).
Proof.
  intros Hvalid Hbefore.
  destruct (day_before_bounds _ _ Hvalid Hbefore) as (Hy & Hm & Hd).
  unfold Calendar.get_yesterday. rewrite Hbefore. cbn [fmap option_fmap option_map].
  destruct (digits_of (Calendar.year d)) as (Hy1 & Hy2 & Hy3 & Hy4).
  destruct (digits_of (Calendar.month d)) as (Hm1 & Hm2 & _).
  destruct (digits_of (Calendar.day d)) as (Hd1 & Hd2 & _).
  split.
  - intros (Hyear & Hmonth & Hday). f_equal.
    unfold Calendar.isoformat, Calendar.unpadded.
    rewrite !pad_full; [reflexivity| | |].
    + rewrite Hd2; lia.
    + rewrite Hm2; lia.
    + rewrite Hy4; lia.
  - intros Hshort d' [= Heq].
    revert Heq. apply unpadded_is_no_iso_date; [lia|lia|lia|exact Hshort].
Qed.

Lemma close_on_absent day (series : list (string * float)) :
  Forall (fun kv => kv.1 <> day) series ->
  AlphaVantageApi.close_on day series = None.
Proof.
  induction 1 as [|[key close] series Hkey _ IH]; [reflexivity|].
  cbn in Hkey. cbn [AlphaVantageApi.close_on].
  rewrite bool_decide_eq_false_2 by exact Hkey. exact IH.
Qed.

(** What the missing zero-padding costs.  On a day whose yesterday has a
    month or a day below 10, against series keyed by ISO dates,
    [get_yesterday_close] finds no entry: the refresh completes, with one
    request per company, but stores [None] for every company; and the
    polling pass that follows requests every price and then skips every
    company, printing nothing and checking no alert. *)
Theorem unpadded_yesterday_blinds_the_monitor cfg e self date_today d :
  Calendar.valid date_today = true ->
  Calendar.day_before date_today = Some d ->
  (Calendar.month d < 10)%N \/ (Calendar.day d < 10)%N ->
  Calendar.get_yesterday date_today = Some (yesterday e) ->
  PriceMonitor.previous_close_date self <> Some (today e) ->
  (forall c, c ∈ StockConfig.get_companies cfg "us" ->
     exists series,
       net e "TIME_SERIES_DAILY" (symbol c)
       = AlphaVantageApi.Json (Some series)
       /\ iso_keyed series) ->
  exists self1,
    PriceMonitor.ensure_previous_closes cfg e self
    = (Ok tt, self1,
       requests_of "TIME_SERIES_DAILY" (StockConfig.get_companies cfg "us"))
    /\ (forall c, c ∈ StockConfig.get_companies cfg "us" ->
          PriceMonitor.previous_closes self1 !! symbol c = Some None)
    /\ ((forall c, c ∈ StockConfig.get_companies cfg "us" ->
           exists v, current_price e (symbol c) = Ok v) ->
        PriceMonitor.poll_prices_for_companies e
          (StockConfig.get_companies cfg "us") self1
        = (Ok tt, self1,
           requests_of "TIME_SERIES_INTRADAY"
             (StockConfig.get_companies cfg "us"))).
Proof.
  intros Hvalid Hbefore Hshort Hyesterday Hstale Hseries.
  assert (forall c, c ∈ StockConfig.get_companies cfg "us" ->
            yesterday_close e (symbol c) = Ok None) as Hnone.
  { intros c Hc. destruct (Hseries c Hc) as (series & Hnet & Hkeys).
    unfold yesterday_close. rewrite Hnet. cbn. f_equal.
    apply close_on_absent. eapply Forall_impl; [exact Hkeys|].
    intros kv [d' Hkey] Heq.
    assert (Calendar.get_yesterday date_today
            <> Some (Calendar.isoformat d')) as Hne.
    { destruct (day_before_bounds _ _ Hvalid Hbefore) as (Hy & Hm & Hd).
      unfold Calendar.get_yesterday. rewrite Hbefore. cbn. intros [= Habs].
      revert Habs. apply unpadded_is_no_iso_date; [lia|lia|lia|].
      right. exact Hshort. }
    apply Hne. rewrite Hyesterday, <- Heq, Hkey. reflexivity. }
  destruct (refresh_loop_ok e (StockConfig.get_companies cfg "us")
              (fun c Hc => ex_intro _ None (Hnone c Hc)) self)
    as (s1 & Hloop & Hdate).
  destruct (refresh_loop_entries e _ _ _ _ Hloop) as [Hin _].
  exists (PriceMonitor.set_previous_close_date (today e) s1).
  split; [|split].
  - unfold PriceMonitor.ensure_previous_closes.
    unfold mbind at 1. unfold prog_bind at 1. unfold bind at 1. unfold gets.
    rewrite bool_decide_eq_false_2 by exact Hstale.
    unfold mbind at 1. unfold prog_bind at 1. unfold bind at 1.
    rewrite Hloop. cbn. rewrite app_nil_r. reflexivity.
  - intros c Hc. cbn. apply (Hin c None Hc), Hnone, Hc.
  - intros Hprices. apply poll_loop_ok. intros c Hc. split.
    + apply Hprices, Hc.
    + cbn. rewrite (Hin c None Hc (Hnone c Hc)). reflexivity.
Qed.

(** ** The series lookup of the provider *)

(** In a series, whose keys are distinct, [get_yesterday_close] returns the
    close stored under yesterday's key, and [None] exactly when the series
    has no such key. *)
Theorem close_on_looks_up_the_key day (series : list (string * float)) :
  NoDup series.*1 ->
  (forall close,
      AlphaVantageApi.close_on day series = Some close
      <-> (day, close) ∈ series)
  /\ (AlphaVantageApi.close_on day series = None <-> day ∉ series.*1).
Proof.
  induction series as [|[key value] series IH]; intros Hnodup.
  - split; [intros close; split; [discriminate|inversion 1]|].
    split; [intros _ Hin; inversion Hin|reflexivity].
  - cbn in Hnodup. apply NoDup_cons in Hnodup as [Hfresh Hnodup].
    destruct (IH Hnodup) as [IHsome IHnone].
    cbn [AlphaVantageApi.close_on]. case_bool_decide as Hkey.
    + subst key. split.
      * intros close. split.
        -- intros [= <-]. left.
        -- intros Hin. apply elem_of_cons in Hin as [[= <-]|Hin];
             [reflexivity|].
           exfalso. apply Hfresh.
           apply (list_elem_of_fmap_2 fst) in Hin. exact Hin.
      * split; [discriminate|]. intros Hnot. exfalso. apply Hnot. left.
    + split.
      * intros close. rewrite IHsome. split.
        -- intros Hin. right. exact Hin.
        -- intros Hin. apply elem_of_cons in Hin as [[= -> _]|Hin];
             [congruence|exact Hin].
      * rewrite IHnone. cbn. rewrite not_elem_of_cons. split.
        -- intros Hnot. split; [congruence|exact Hnot].
        -- intros [_ Hnot]. exact Hnot.
Qed.

(** ** One refresh per day *)

Lemma poll_keeps_state e companies self r self' t :
  PriceMonitor.poll_prices_for_companies e companies self = (r, self', t) ->
  self' = self.
Proof.
  unfold PriceMonitor.poll_prices_for_companies. revert self r self' t.
  induction companies as [|c companies IH]; intros self r self' t.
  - cbn. intros [= _ <- _]. reflexivity.
  - cbn [for_each]. unfold bind.
    destruct (PriceMonitor.poll_company e c self) as [[[[]|ex] sx] tx] eqn:Hc.
    + pose proof (poll_company_keeps_state _ _ _ _ _ _ Hc) as ->.
      destruct (for_each companies _ self) as [[r2 s2] t2] eqn:Hrest.
      intros [= _ <- _]. eapply IH, Hrest.
    + intros [= _ <- _]. eapply poll_company_keeps_state, Hc.
Qed.

Lemma poll_makes_no_daily_request e companies self r self' t :
  PriceMonitor.poll_prices_for_companies e companies self = (r, self', t) ->
  Forall (fun ev => is_daily_request ev = false) t.
Proof.
  apply for_each_trace. intros c s r0 s0 t0. rewrite poll_company_run.
  cbv zeta. repeat case_match; intros [= _ _ <-]; repeat constructor.
Qed.

(** On a day for which the cache is stamped, a turn of the loop changes
    nothing in the state and makes no daily request. *)
Lemma stamped_iteration cfg e self :
  PriceMonitor.previous_close_date self = Some (today e) ->
  exists t,
    PriceMonitor.iteration cfg e self = (Ok tt, self, t)
    /\ Forall (fun ev => is_daily_request ev = false) t.
Proof.
  intros Hfresh.
  destruct (decide (PriceMonitor.get_active_markets cfg = [])) as [Hclosed|Hopen].
  - exists [EvSleep 300]. split; [|repeat constructor].
    unfold PriceMonitor.iteration, try_except, PriceMonitor.cycle.
    rewrite Hclosed. reflexivity.
  - pose proof (active_cycle_run cfg e self Hopen) as Hrun.
    rewrite (ensure_previous_closes_fresh _ _ _ Hfresh) in Hrun.
    destruct (PriceMonitor.poll_prices_for_companies e _ self)
      as [[r2 s2] t2] eqn:Hpoll.
    pose proof (poll_keeps_state _ _ _ _ _ _ Hpoll) as ->.
    pose proof (poll_makes_no_daily_request _ _ _ _ _ _ Hpoll) as Ht2.
    assert (exists err, PriceMonitor.cycle cfg e self = (Raise err, self, t2))
      as [err Hcycle].
    { destruct r2 as [[]|err2]; cbn in Hrun; eauto. }
    exists (t2 ++ [EvLogError err; EvSleep 60]). split.
    + apply iteration_recovers, Hcycle.
    + apply Forall_app. split; [exact Ht2|repeat constructor].
Qed.

(** The previous closes are fetched once per day at most.  Once the cache
    is stamped with a date, the loop makes no request for the daily series
    for as long as that date is today, whatever the provider answers and
    whatever goes wrong in the cycles; and the cache stays as it is. *)
Theorem stamped_day_makes_no_daily_request cfg world self day :
  PriceMonitor.previous_close_date self = Some day ->
  (forall e, e ∈ world -> today e = day) ->
  exists t,
    PriceMonitor.monitor_prices cfg world self = (Ok tt, self, t)
    /\ filter is_daily_request t = [].
Proof.
  intros Hstamp. unfold PriceMonitor.monitor_prices.
  induction world as [|e world IH]; intros Hday.
  - exists []. split; reflexivity.
  - destruct (stamped_iteration cfg e self) as (t1 & Hturn & Ht1).
    { rewrite Hstamp, (Hday e); [reflexivity|left]. }
    destruct IH as (t2 & Hrest & Ht2).
    { intros e' He'. apply Hday. right. exact He'. }
    exists (t1 ++ t2). split.
    + cbn [for_each]. unfold bind. rewrite Hturn, Hrest. reflexivity.
    + rewrite filter_app, Ht2, app_nil_r.
      clear - Ht1. induction Ht1 as [|ev t Hev _ IH]; [reflexivity|].
      rewrite filter_cons_False; [exact IH|].
      rewrite Hev. exact id.
Qed.

(** ** The groups of [group_by_news_sources] *)

Lemma append_to_members c groups source s' (c' : StockMonitorNews.news_company) :
  c' ∈ default [] (StockMonitorNews.append_to c groups source !! s')
  <-> c' ∈ default [] (groups !! s') \/ (s' = source /\ c' = c).
Proof.
  unfold StockMonitorNews.append_to.
  destruct (decide (source = s')) as [->|Hne].
  - rewrite lookup_insert_eq. cbn. rewrite elem_of_app, list_elem_of_singleton.
    split; intros [H|H]; auto. right. apply H.
  - rewrite lookup_insert_ne by exact Hne. split; [auto|].
    intros [H|[-> _]]; [exact H|congruence].
Qed.

Lemma append_all_members c srcs :
  forall groups s' (c' : StockMonitorNews.news_company),
    c' ∈ default [] (foldl (StockMonitorNews.append_to c) groups srcs !! s')
    <-> c' ∈ default [] (groups !! s') \/ (s' ∈ srcs /\ c' = c).
Proof.
  induction srcs as [|source srcs IH]; intros groups s' c'; cbn [foldl].
  - split; [auto|]. intros [H|[H _]]; [exact H|inversion H].
  - rewrite IH, append_to_members, elem_of_cons. tauto.
Qed.

Lemma add_company_members groups c s' (c' : StockMonitorNews.news_company) :
  c' ∈ default [] (StockMonitorNews.add_company groups c !! s')
  <-> c' ∈ default [] (groups !! s')
      \/ (c' = c
          /\ StockMonitorNews.news_enabled (StockMonitorNews.news_alerts c)
             = true
          /\ s' ∈ StockMonitorNews.sources (StockMonitorNews.news_alerts c)).
Proof.
  unfold StockMonitorNews.add_company.
  destruct (StockMonitorNews.news_enabled (StockMonitorNews.news_alerts c)).
  - rewrite append_all_members. tauto.
  - split; [auto|]. intros [H|(_ & [=] & _)]. exact H.
Qed.

Lemma add_companies_members l :
  forall groups s' (c' : StockMonitorNews.news_company),
    c' ∈ default [] (foldl StockMonitorNews.add_company groups l !! s')
    <-> c' ∈ default [] (groups !! s')
        \/ (c' ∈ l
            /\ StockMonitorNews.news_enabled (StockMonitorNews.news_alerts c')
               = true
            /\ s' ∈ StockMonitorNews.sources
                      (StockMonitorNews.news_alerts c')).
Proof.
  induction l as [|c l IH]; intros groups s' c'; cbn [foldl].
  - split; [auto|]. intros [H|[H _]]; [exact H|inversion H].
  - rewrite IH, add_company_members, elem_of_cons.
    split.
    + intros [[H|(-> & Hen & Hsrc)]|H]; auto.
      destruct H as (Hin & Hen & Hsrc). auto.
    + intros [H|([->|Hin] & Hen & Hsrc)]; auto.
Qed.

(** [group_by_news_sources] returns when the configuration has both the
    Swedish and the US market, and then a company is in the group of a
    source exactly when it is a company of one of the two markets, has news
    alerts enabled and lists that source: companies with news alerts
    disabled are in no group, and a source that no enabled company lists has
    no group. *)
Theorem news_groups_hold_the_enabled_listers companies :
  (is_Some (StockMonitorNews.group_by_news_sources companies)
   <-> is_Some (companies !! "swedish") /\ is_Some (companies !! "us"))
  /\ (forall groups,
        StockMonitorNews.group_by_news_sources companies = Some groups ->
        forall source c,
          c ∈ default [] (groups !! source)
          <-> (exists market company_list,
                 market ∈ ["swedish"; "us"]
                 /\ companies !! market = Some company_list
                 /\ c ∈ company_list)
              /\ StockMonitorNews.news_enabled (StockMonitorNews.news_alerts c)
                 = true
              /\ source ∈ StockMonitorNews.sources
                            (StockMonitorNews.news_alerts c)).
Proof.
  unfold StockMonitorNews.group_by_news_sources. cbn [foldl].
  unfold StockMonitorNews.add_market. cbn.
  destruct (companies !! "swedish") as [swedish|] eqn:Hsw; cbn.
  2: { split; [split; [intros [? [=]]|intros [[? [=]] _]]|discriminate]. }
  destruct (companies !! "us") as [us|] eqn:Hus; cbn.
  2: { split; [split; [intros [? [=]]|intros [_ [? [=]]]]|discriminate]. }
  split; [split; eauto|].
  intros groups [= <-] source c.
  rewrite !add_companies_members, lookup_empty. cbn.
  split.
  - intros [[Habs|(Hin & Hen & Hsrc)]|(Hin & Hen & Hsrc)].
    + inversion Habs.
    + split; [|auto]. exists "swedish", swedish.
      split; [left|]. auto.
    + split; [|auto]. exists "us", us.
      split; [right; left|]. auto.
  - intros [(market & l & Hmarket & Hl & Hin) [Hen Hsrc]].
    apply elem_of_cons in Hmarket as [->|Hmarket].
    + left. right. rewrite Hsw in Hl. injection Hl as <-. auto.
    + apply list_elem_of_singleton in Hmarket as ->.
      right. rewrite Hus in Hl. injection Hl as <-. auto.
Qed.

(** ** The properties above on concrete inputs *)

Ltac each_member H :=
  repeat (apply elem_of_cons in H as [->|H]); [..|inversion H].

(** A first refresh for AAA and BBB, with a provider that answers. *)
Lemma refresh_stores_every_answer_witness :
  exists self1,
    PriceMonitor.ensure_previous_closes (us_config [AAA; BBB])
      (on_day (provider [] 100)) PriceMonitor.init
    = (Ok tt, self1, requests_of "TIME_SERIES_DAILY" [AAA; BBB])
    /\ PriceMonitor.previous_closes self1 !! "AAA" = Some (Some 100%float).
Proof.
  destruct (refresh_stores_every_answer (us_config [AAA; BBB])
              (on_day (provider [] 100)) PriceMonitor.init)
    as (self1 & Hrun & _ & Hin & _).
  - vm_compute. discriminate.
  - intros c Hc. each_member Hc; eexists; vm_compute; reflexivity.
  - exists self1. split; [exact Hrun|].
    apply (Hin AAA (Some 100%float)); [left|vm_compute; reflexivity].
Defined.

(** Two turns against a provider that limits the rate. *)
Lemma persistent_failure_retries_first_company_witness :
  PriceMonitor.monitor_prices (us_config [AAA; BBB])
    [on_day rate_limited; on_day rate_limited] PriceMonitor.init
  = (Ok tt, PriceMonitor.init,
     [EvRequest "TIME_SERIES_DAILY" "AAA";
      EvLogError (AttributeError "items"); EvSleep 60;
      EvRequest "TIME_SERIES_DAILY" "AAA";
      EvLogError (AttributeError "items"); EvSleep 60]).
Proof.
  apply (persistent_failure_retries_first_company (us_config [AAA; BBB]) AAA
           [BBB] [on_day rate_limited; on_day rate_limited] PriceMonitor.init
           (AttributeError "items")).
  - reflexivity.
  - vm_compute. discriminate.
  - intros e He. each_member He;
      (split; [vm_compute; discriminate|vm_compute; reflexivity]).
Defined.

(** A move of 50 percent, 500 s after the recorded alert. *)
Lemma alert_within_cooldown_is_suppressed_witness :
  exists self',
    StockMonitor.process_symbol (configured [XYZ]) (fun _ => seconds 500)
      ("XYZ", {| price := 150; previous_close := 100 |}) []
      (watching [("XYZ", 100%float)] [("XYZ", seconds 0)])
    = (Ok [], self', []).
Proof.
  destruct (alert_within_cooldown_is_suppressed (configured [XYZ])
              (fun _ => seconds 500) "XYZ"
              {| price := 150; previous_close := 100 |}
              {| price := 100; previous_close := 100 |} XYZ (upward 5) [] []
              (watching [("XYZ", 100%float)] [("XYZ", seconds 0)])
              (seconds 0))
    as (self' & Hrun & _); try (vm_compute; reflexivity).
  - vm_compute. split; [discriminate|reflexivity].
  - exists self'. exact Hrun.
Defined.

(** XYZ is monitored, ZZZ is unknown to the configuration. *)
Lemma cache_holds_latest_observation_witness :
  exists self' t,
    StockMonitor.process_price_updates (configured [XYZ]) (fun _ => 0)
      [("XYZ", {| price := 106; previous_close := 100 |});
       ("ZZZ", {| price := 5; previous_close := 5 |})] "us" StockMonitor.init
    = (Ok tt, self', t)
    /\ StockMonitor.cache self' !! "XYZ"
       = Some {| price := 106; previous_close := 100 |}
    /\ StockMonitor.cache self' !! "ZZZ" = None.
Proof.
  destruct (StockMonitor.process_price_updates (configured [XYZ]) (fun _ => 0)
              [("XYZ", {| price := 106; previous_close := 100 |});
               ("ZZZ", {| price := 5; previous_close := 5 |})] "us"
              StockMonitor.init) as [[r self'] t] eqn:Hrun.
  assert (r = Ok tt) as ->.
  { apply (f_equal (fun x => x.1.1)) in Hrun. vm_compute in Hrun. congruence. }
  exists self', t. split; [reflexivity|].
  assert (NoDup [("XYZ", {| price := 106; previous_close := 100 |});
                 ("ZZZ", {| price := 5; previous_close := 5 |})].*1)
    as Hnodup.
  { apply NoDup_cons. split; [|apply NoDup_singleton].
    rewrite list_elem_of_singleton. discriminate. }
  destruct (cache_holds_latest_observation _ _ _ _ _ _ _ Hnodup Hrun)
    as [Hin _].
  split.
  - apply (Hin "XYZ" {| price := 106; previous_close := 100 |}). left.
  - apply (Hin "ZZZ" {| price := 5; previous_close := 5 |}). right. left.
Defined.

(** XYZ moves by 6 percent and its alert is collected; NIL, which has no
    condition, raises IndexError: nothing is sent, and the cooldown of XYZ
    is recorded. *)
Lemma raised_call_loses_collected_alerts_witness :
  exists s1,
    StockMonitor.process_price_updates (configured [XYZ; NIL]) (fun _ => 0)
      ([("XYZ", {| price := 106; previous_close := 100 |})]
       ++ ("NIL", {| price := 50; previous_close := 50 |}) :: []) "us"
      (watching [("XYZ", 100%float); ("NIL", 50%float)] [])
    = (Raise IndexError, s1, [])
    /\ is_Some (StockMonitor.alert_cooldown s1
                !! StockMonitor.cooldown_key "XYZ" "price").
Proof.
  edestruct (raised_call_loses_collected_alerts (configured [XYZ; NIL])
               (fun _ => 0)
               [("XYZ", {| price := 106; previous_close := 100 |})]
               ("NIL", {| price := 50; previous_close := 50 |}) [] "us"
               (watching [("XYZ", 100%float); ("NIL", 50%float)] []))
    as [Hrun Hcool].
  - reflexivity.
  - reflexivity.
  - eexists. split; [exact Hrun|].
    apply Forall_cons in Hcool as [Hxyz _]. exact Hxyz.
Defined.

(** Two symbols make one batch. *)
Lemma fetch_batch_prices_requests_witness :
  exists results,
    BatchFetch.fetch_batch_prices (fun _ => Ok ∅) ["AAA"; "BBB"] "us" tt
    = (Ok results, tt, [EvRequest "batch" "AAA,BBB"]).
Proof.
  apply (fetch_batch_prices_requests (fun _ => Ok ∅) ["AAA"; "BBB"] "us" tt).
  intros batch _. eexists. reflexivity.
Defined.

Lemma market_companies_are_among_all_witness :
  StockConfig.with_market "us" XYZ
  ∈ StockConfig.get_companies (us_config [XYZ]) "".
Proof.
  apply (proj1 (market_companies_are_among_all (us_config [XYZ]) "us"
                  ltac:(discriminate))).
  left.
Defined.

(** On 3 November 2026 yesterday is printed as 2026-11-2, which is no ISO
    date. *)
Lemma get_yesterday_is_not_zero_padded_witness :
  Calendar.get_yesterday {| Calendar.year := 2026; Calendar.month := 11;
                            Calendar.day := 3 |}
  <> Some (Calendar.isoformat {| Calendar.year := 2026; Calendar.month := 11;
                                 Calendar.day := 2 |}).
Proof.
  apply (proj2 (get_yesterday_is_not_zero_padded
                  {| Calendar.year := 2026; Calendar.month := 11;
                     Calendar.day := 3 |}
                  {| Calendar.year := 2026; Calendar.month := 11;
                     Calendar.day := 2 |}
                  ltac:(vm_compute; reflexivity)
                  ltac:(vm_compute; reflexivity))).
  right. right. vm_compute. reflexivity.
Defined.

(** The same day against a provider with ISO keys: the refresh stores no
    previous close for XYZ. *)
Lemma unpadded_yesterday_blinds_the_monitor_witness :
  exists self1,
    PriceMonitor.ensure_previous_closes (us_config [XYZ])
      (on_day (iso_provider 100)) PriceMonitor.init
    = (Ok tt, self1, requests_of "TIME_SERIES_DAILY" [XYZ])
    /\ PriceMonitor.previous_closes self1 !! "XYZ" = Some None.
Proof.
  destruct (unpadded_yesterday_blinds_the_monitor (us_config [XYZ])
              (on_day (iso_provider 100)) PriceMonitor.init
              {| Calendar.year := 2026; Calendar.month := 11;
                 Calendar.day := 3 |}
              {| Calendar.year := 2026; Calendar.month := 11;
                 Calendar.day := 2 |})
    as (self1 & Hrun & Hnone & _).
  - vm_compute. reflexivity.
  - vm_compute. reflexivity.
  - right. vm_compute. reflexivity.
  - vm_compute. reflexivity.
  - vm_compute. discriminate.
  - intros c Hc. each_member Hc. eexists. split; [reflexivity|].
    constructor; [|constructor].
    exists {| Calendar.year := 2026; Calendar.month := 11;
              Calendar.day := 2 |}.
    vm_compute. reflexivity.
  - exists self1. split; [exact Hrun|]. apply (Hnone XYZ). left.
Defined.

Lemma close_on_looks_up_the_key_witness :
  AlphaVantageApi.close_on "2026-11-02"
    [("2026-11-03", 101%float); ("2026-11-02", 100%float)]
  = Some 100%float.
Proof.
  apply (proj1 (close_on_looks_up_the_key "2026-11-02"
                  [("2026-11-03", 101%float); ("2026-11-02", 100%float)]
                  ltac:(apply NoDup_cons; split;
                        [rewrite list_elem_of_singleton; discriminate
                        |apply NoDup_singleton]))).
  right. left.
Defined.

(** Two turns on the day of the stamp. *)
Lemma stamped_day_makes_no_daily_request_witness :
  exists t,
    PriceMonitor.monitor_prices (us_config [XYZ])
      [on_day (provider [] 106); on_day (provider [] 107)]
      (refreshed [("XYZ", 100%float)])
    = (Ok tt, refreshed [("XYZ", 100%float)], t)
    /\ filter is_daily_request t = [].
Proof.
  apply (stamped_day_makes_no_daily_request (us_config [XYZ])
           [on_day (provider [] 106); on_day (provider [] 107)]
           (refreshed [("XYZ", 100%float)]) "2026-11-03").
  - reflexivity.
  - intros e He. each_member He; reflexivity.
Defined.
